(** * CTA Bus-O-Tron: the arrival-urgency display engine

    A shallow embedding of [ctaBusOTron.ino] (ESP8266, Arduino core) and the
    properties of its LED controller, display manager and MQTT message
    handler.

    Conventions.  The sketch is compiled for the ESP8266, an ILP32 target:
    [int] and [long] are 32-bit two's complement, [unsigned long] and
    [unsigned int] are 32-bit.  Machine integers are values of [Z] kept in
    the range of their type; every conversion and wrap-around is written
    out.  The GPIO pins are a record of six levels threaded through the
    functions that write them.  [Serial] diagnostics never feed back into
    the state and are left out. *)

From Stdlib Require Import ZArith Lia Bool Ascii String.
From stdpp Require Import base tactics option list.

Local Open Scope Z_scope.

(** ** Machine integers of the target *)

Module Machine.

Definition INT_MIN : Z := - 2 ^ 31.
Definition INT_MAX : Z := 2 ^ 31 - 1.
Definition ULONG_MAX : Z := 2 ^ 32 - 1.

(** A value of type [int] / [long]. *)
Definition is_int (z : Z) : Prop := INT_MIN <= z <= INT_MAX.
(** A value of type [unsigned long] / [unsigned int]. *)
Definition is_ulong (z : Z) : Prop := 0 <= z <= ULONG_MAX.

(** Conversion to [unsigned long]: reduction modulo 2^32. *)
Definition to_ulong (z : Z) : Z := z mod 2 ^ 32.

(** Conversion to [int]: the representative in [INT_MIN .. INT_MAX]. *)
Definition to_int (z : Z) : Z := (z + 2 ^ 31) mod 2 ^ 32 - 2 ^ 31.

(** [a + b] and [a - b] computed in [unsigned long]. *)
Definition ulong_add (a b : Z) : Z := to_ulong (a + b).
Definition ulong_sub (a b : Z) : Z := to_ulong (a - b).

(** [a / b] on [int]: C division truncates towards zero. *)
Definition int_div (a b : Z) : Z := to_int (Z.quot a b).

End Machine.

Import Machine.

(** ** Enumerations and the route record (lines 37-55) *)

Inductive RouteType := BUS_ROUTE | RAIL_ROUTE.
Inductive LightColor := AMBER_LEFT | AMBER_RIGHT | RED_LIGHT.
Inductive ArrowDirection := ARROW_LEFT | ARROW_RIGHT | NO_ARROW.

Record Route := mkRoute {
  name : string;
  topic : string;
  type : RouteType;
  color : LightColor;
  arrow : ArrowDirection;
  displaySlot : Z;
  eta : Z
}.

(** The constructor of [Route]: every field from its argument, [eta(0)]. *)
Definition Route_new (n t : string) (rt : RouteType) (c : LightColor)
    (a : ArrowDirection) (slot : Z) : Route :=
  {| name := n; topic := t; type := rt; color := c; arrow := a;
     displaySlot := slot; eta := 0 |}.

(** Assignment [r.eta = v]. *)
Definition set_eta (v : Z) (r : Route) : Route :=
  {| name := name r; topic := topic r; type := type r; color := color r;
     arrow := arrow r; displaySlot := displaySlot r; eta := v |}.

(** ** GPIO pins *)

Inductive Pin :=
  PIN_ARROW_RIGHT | PIN_ARROW_LEFT | PIN_AMBER_RIGHT | PIN_AMBER_LEFT
| PIN_TALL_LIGHT | PIN_RED.

(** Output level of each of the six pins; [true] is HIGH. *)
Record Pins := mkPins {
  arrow_right : bool;
  arrow_left : bool;
  amber_right : bool;
  amber_left : bool;
  tall_light : bool;
  red_led : bool
}.

Definition HIGH : bool := true.
Definition LOW : bool := false.

Definition digitalWrite (p : Pin) (level : bool) (s : Pins) : Pins :=
  match p with
  | PIN_ARROW_RIGHT =>
      mkPins level (arrow_left s) (amber_right s) (amber_left s) (tall_light s) (red_led s)
  | PIN_ARROW_LEFT =>
      mkPins (arrow_right s) level (amber_right s) (amber_left s) (tall_light s) (red_led s)
  | PIN_AMBER_RIGHT =>
      mkPins (arrow_right s) (arrow_left s) level (amber_left s) (tall_light s) (red_led s)
  | PIN_AMBER_LEFT =>
      mkPins (arrow_right s) (arrow_left s) (amber_right s) level (tall_light s) (red_led s)
  | PIN_TALL_LIGHT =>
      mkPins (arrow_right s) (arrow_left s) (amber_right s) (amber_left s) level (red_led s)
  | PIN_RED =>
      mkPins (arrow_right s) (arrow_left s) (amber_right s) (amber_left s) (tall_light s) level
  end.

(** ** LEDController (lines 71-177) *)

Module LEDController.

Definition BLINK_SUPER_FAST : Z := 180.
Definition BLINK_FAST : Z := 360.
Definition BLINK_MEDIUM : Z := 600.
Definition BLINK_SLOW : Z := 900.

Definition turnOffAll (s : Pins) : Pins :=
  let s := digitalWrite PIN_ARROW_RIGHT LOW s in
  let s := digitalWrite PIN_ARROW_LEFT LOW s in
  let s := digitalWrite PIN_AMBER_RIGHT LOW s in
  let s := digitalWrite PIN_AMBER_LEFT LOW s in
  digitalWrite PIN_RED LOW s.

Definition init (s : Pins) : Pins :=
  let s := turnOffAll s in
  digitalWrite PIN_TALL_LIGHT HIGH s.

Definition setStatusLight (on : bool) (s : Pins) : Pins :=
  digitalWrite PIN_TALL_LIGHT (if on then HIGH else LOW) s.

Definition setColorLight (c : LightColor) (on : bool) (s : Pins) : Pins :=
  match c with
  | AMBER_LEFT => digitalWrite PIN_AMBER_LEFT (if on then HIGH else LOW) s
  | AMBER_RIGHT => digitalWrite PIN_AMBER_RIGHT (if on then HIGH else LOW) s
  | RED_LIGHT => digitalWrite PIN_RED (if on then HIGH else LOW) s
  end.

Definition setArrow (direction : ArrowDirection) (on : bool) (s : Pins) : Pins :=
  match direction with
  | ARROW_LEFT =>
      let s := digitalWrite PIN_ARROW_LEFT (if on then HIGH else LOW) s in
      digitalWrite PIN_ARROW_RIGHT LOW s
  | ARROW_RIGHT =>
      let s := digitalWrite PIN_ARROW_RIGHT (if on then HIGH else LOW) s in
      digitalWrite PIN_ARROW_LEFT LOW s
  | NO_ARROW =>
      let s := digitalWrite PIN_ARROW_LEFT LOW s in
      digitalWrite PIN_ARROW_RIGHT LOW s
  end.

(** Milliseconds of the blink interval, [-1] for solid on, [0] for off. *)
Definition getBlinkInterval (eta : Z) : Z :=
  if eta <? 90 then BLINK_SUPER_FAST
  else if eta <? 300 then BLINK_FAST
  else if eta <? 600 then BLINK_MEDIUM
  else if eta <? 900 then BLINK_SLOW
  else if eta <? 5000 then -1
  else 0.

(** Line 144: [(currentTime % blinkInterval) < (blinkInterval / 2)].
    [currentTime] is [unsigned long], [blinkInterval] is [int]: the
    remainder and the comparison are taken in [unsigned long], the halving
    in [int]. *)
Definition shouldBeOn (currentTime blinkInterval : Z) : bool :=
  (currentTime mod to_ulong blinkInterval) <? to_ulong (int_div blinkInterval 2).

Definition updateArrowBlink (direction : ArrowDirection) (eta : Z)
    (currentTime : Z) (s : Pins) : Pins :=
  if eta <=? 0 then setArrow direction false s
  else
    let blinkInterval := getBlinkInterval eta in
    if blinkInterval =? 0 then setArrow direction false s
    else if blinkInterval =? -1 then setArrow direction true s
    else setArrow direction (shouldBeOn currentTime blinkInterval) s.

End LEDController.

(** ** Blink policies: the three outcomes of [updateArrowBlink] *)

Inductive BlinkPolicy :=
| Off
| Blink (intervalMs : Z)
| Solid.

(** The return code of [getBlinkInterval] read as a policy. *)
Definition policy_of_interval (blinkInterval : Z) : BlinkPolicy :=
  if blinkInterval =? 0 then Off
  else if blinkInterval =? -1 then Solid
  else Blink blinkInterval.

(** The policy [updateArrowBlink] applies to an ETA: the [eta <= 0] guard of
    line 125, then the code returned by [getBlinkInterval]. *)
Definition classify (eta : Z) : BlinkPolicy :=
  if eta <=? 0 then Off
  else policy_of_interval (LEDController.getBlinkInterval eta).

(** The level [updateArrowBlink] hands to [setArrow] under a policy. *)
Definition isOn (policy : BlinkPolicy) (now : Z) : bool :=
  match policy with
  | Off => false
  | Solid => true
  | Blink interval => LEDController.shouldBeOn now interval
  end.

(** ** The device state

    The fields of [BusOTron] and of the [DisplayManager] it owns.  The
    display manager holds a pointer to the same [routes] array and a
    reference to the same LED controller, so one record carries them all. *)

Record Device := mkDevice {
  pins : Pins;
  lastStatusPrint : Z;
  systemEnabled : bool;
  alertActive : bool;
  routes : list Route
}.

Definition with_pins (f : Pins -> Pins) (d : Device) : Device :=
  mkDevice (f (pins d)) (lastStatusPrint d) (systemEnabled d) (alertActive d) (routes d).
Definition set_lastStatusPrint (t : Z) (d : Device) : Device :=
  mkDevice (pins d) t (systemEnabled d) (alertActive d) (routes d).
Definition set_systemEnabled (b : bool) (d : Device) : Device :=
  mkDevice (pins d) (lastStatusPrint d) b (alertActive d) (routes d).
Definition set_alertActive (b : bool) (d : Device) : Device :=
  mkDevice (pins d) (lastStatusPrint d) (systemEnabled d) b (routes d).
Definition set_routes (rs : list Route) (d : Device) : Device :=
  mkDevice (pins d) (lastStatusPrint d) (systemEnabled d) (alertActive d) rs.

(** ** DisplayManager (lines 295-357) *)

Module DisplayManager.

Definition DISPLAY_CYCLE_LENGTH : Z := 60000.
Definition SLOT_DURATION : Z := 10000.
Definition STATUS_PRINT_INTERVAL : Z := 5000.

(** Line 324: [(currentTime % DISPLAY_CYCLE_LENGTH) / SLOT_DURATION],
    computed in [unsigned long] and stored in an [int]. *)
Definition currentSlot (currentTime : Z) : Z :=
  to_int ((currentTime mod to_ulong DISPLAY_CYCLE_LENGTH) / to_ulong SLOT_DURATION).

(** Lines 327-333: the first route of the array assigned to the slot. *)
Fixpoint findRoute (rs : list Route) (slot : Z) : option Route :=
  match rs with
  | [] => None
  | r :: rest => if displaySlot r =? slot then Some r else findRoute rest slot
  end.

Definition update (currentTime : Z) (enabled : bool) (d : Device) : Device :=
  if negb enabled then with_pins LEDController.turnOffAll d
  else
    let d :=
      if to_ulong STATUS_PRINT_INTERVAL <=? ulong_sub currentTime (lastStatusPrint d)
      then set_lastStatusPrint currentTime d
      else d in
    let slot := currentSlot currentTime in
    let currentRoute := findRoute (routes d) slot in
    let d := with_pins LEDController.turnOffAll d in
    match currentRoute with
    | Some r =>
        if 0 <? eta r then
          let d := with_pins (LEDController.setColorLight (color r) true) d in
          with_pins (LEDController.updateArrowBlink (arrow r) (eta r) currentTime) d
        else d
    | None => d
    end.

End DisplayManager.

(** The slot scheduler is line 324 of [DisplayManager::update]. *)
Definition activeSlot (now : Z) : Z := DisplayManager.currentSlot now.

(** ** C strings and the Arduino [String] used by the message handler

    A value of type [string] is the content of a [char] array up to the
    terminator the code wrote at its end; the C library functions read it
    as a C string, that is up to its first NUL byte. *)

Module CString.

Definition NUL : ascii := Ascii.zero.

Definition byte (c : ascii) : Z := Z.of_N (N_of_ascii c).

(** The C string held in an array: the bytes before the first NUL. *)
Fixpoint c_str (s : string) : string :=
  match s with
  | EmptyString => EmptyString
  | String c rest => if Ascii.eqb c NUL then EmptyString else String c (c_str rest)
  end.

(** [strcmp]: zero when the two C strings are equal, else the difference
    of the first pair of bytes that differ. *)
Fixpoint strcmp (a b : string) : Z :=
  match a, b with
  | EmptyString, EmptyString => 0
  | EmptyString, String d _ => 0 - byte d
  | String c _, EmptyString => byte c
  | String c a', String d b' =>
      if Ascii.eqb c d then (if Ascii.eqb c NUL then 0 else strcmp a' b')
      else byte c - byte d
  end.

(** [isspace] in the C locale: space, and HT, LF, VT, FF, CR. *)
Definition isspace (c : ascii) : bool :=
  (byte c =? 32) || ((9 <=? byte c) && (byte c <=? 13)).

Definition isdigit (c : ascii) : bool :=
  (48 <=? byte c) && (byte c <=? 57).

Fixpoint skip_space (s : string) : string :=
  match s with
  | String c rest => if isspace c then skip_space rest else s
  | EmptyString => s
  end.

(** Value of the longest run of decimal digits at the head of [s]. *)
Fixpoint digits (acc : Z) (s : string) : Z :=
  match s with
  | String c rest => if isdigit c then digits (acc * 10 + (byte c - 48)) rest else acc
  | EmptyString => acc
  end.

(** One optional sign: [-] is byte 45, [+] is byte 43. *)
Definition read_sign (s : string) : bool * string :=
  match s with
  | String c rest =>
      if byte c =? 45 then (true, rest)
      else if byte c =? 43 then (false, rest)
      else (false, s)
  | EmptyString => (false, s)
  end.

(** [atol], which the C library defines as [strtol(s, NULL, 10)]: leading
    white space is skipped, one optional sign is read, then decimal digits
    up to the first other byte; no digits give 0; a value out of the range
    of [long] gives the nearest bound. *)
Definition atol (s : string) : Z :=
  let '(neg, s) := read_sign (skip_space s) in
  let v := digits 0 s in
  let v := if neg then - v else v in
  Z.max INT_MIN (Z.min INT_MAX v).

(** Arduino's [String(const char* )] copies the C string and
    [String::toInt] returns [atol] of its buffer. *)
Definition toInt (cstr : string) : Z := atol (c_str cstr).

End CString.

(** ** BusOTron (lines 366-495) *)

Module BusOTron.

Definition ROUTE_COUNT : Z := 6.

Definition ROUTES : list Route := [
  Route_new "Downtown Express" "CTApredictions/BUS/dtwnEXP" BUS_ROUTE AMBER_LEFT ARROW_LEFT 0;
  Route_new "Route 77 West" "CTApredictions/BUS/1151/77" BUS_ROUTE AMBER_LEFT ARROW_RIGHT 1;
  Route_new "Brown Line South" "CTApredictions/RAIL/30232" RAIL_ROUTE RED_LIGHT ARROW_LEFT 2;
  Route_new "Brown Line North" "CTApredictions/RAIL/30231" RAIL_ROUTE RED_LIGHT ARROW_RIGHT 3;
  Route_new "Route 151 South" "CTApredictions/BUS/1074/151" BUS_ROUTE AMBER_RIGHT ARROW_LEFT 4;
  Route_new "Route 151 North" "CTApredictions/BUS/1151/151" BUS_ROUTE AMBER_RIGHT ARROW_RIGHT 5
].

(** The constructor (line 390), over whatever levels the pins power up at. *)
Definition new (power_on : Pins) : Device :=
  {| pins := power_on; lastStatusPrint := 0; systemEnabled := true;
     alertActive := false; routes := ROUTES |}.

(** [init], without the network set-up. *)
Definition init (d : Device) : Device := with_pins LEDController.init d.

Definition ENABLE_TOPIC : string := "devices/busotron/enable".
Definition ALERT_TOPIC : string := "CTApredictions/alert/active".

(** [sizeof(message)] *)
Definition MESSAGE_SIZE : Z := 16.

(** Lines 445-454: the bytes copied into [message] before its terminator;
    [length] is the length of [payload]. *)
Definition receive (payload : string) : string :=
  let length := Z.of_nat (String.length payload) in
  if length <? MESSAGE_SIZE then payload
  else substring 0 (Z.to_nat (MESSAGE_SIZE - 1)) payload.

(** Lines 481-490: the first route whose topic compares equal takes the
    ETA and the loop returns; no match leaves the array as it is. *)
Fixpoint updateEta (rs : list Route) (topic_ : string) (eta_ : Z) : list Route :=
  match rs with
  | [] => []
  | r :: rest =>
      if CString.strcmp topic_ (topic r) =? 0 then set_eta eta_ r :: rest
      else r :: updateEta rest topic_ eta_
  end.

Definition handleMQTTMessage (topic_ payload : string) (d : Device) : Device :=
  let message := receive payload in
  if CString.strcmp topic_ ENABLE_TOPIC =? 0 then
    set_systemEnabled (CString.strcmp message "ON" =? 0) d
  else if CString.strcmp topic_ ALERT_TOPIC =? 0 then
    set_alertActive (CString.strcmp message "ON" =? 0) d
  else
    let eta_ := to_int (CString.toInt message) in
    set_routes (updateEta (routes d) topic_ eta_) d.

(** Lines 431-440: the topics handed to [networkManager.subscribe], in
    call order: the two control topics, then the topic of every route. *)
Definition subscribeToTopics (d : Device) : list string :=
  let control := ["devices/busotron/enable"; "CTApredictions/alert/active"]%string in
  control ++ map topic (routes d).

(** One render tick: the part of [loop] after [networkManager.loop()],
    with [currentTime] the value [millis()] returned. *)
Definition render (currentTime : Z) (d : Device) : Device :=
  let d := DisplayManager.update currentTime (systemEnabled d) d in
  with_pins (LEDController.setStatusLight (alertActive d)) d.

(** Messages delivered by [networkManager.loop()], in arrival order. *)
Fixpoint deliver (inbox : list (string * string)) (d : Device) : Device :=
  match inbox with
  | [] => d
  | (t, p) :: rest => deliver rest (handleMQTTMessage t p d)
  end.

(** One iteration of [loop]. *)
Definition loop (inbox : list (string * string)) (currentTime : Z) (d : Device) : Device :=
  render currentTime (deliver inbox d).

End BusOTron.

(** ** The render loop in the words of the specification

    Step 1: not enabled, all route indicators off.  Step 2: the route that
    owns the active slot.  Step 3: found with a positive ETA, its colour on
    and its arrow at [isOn (classify eta) now]; otherwise all off.  Step 4:
    the status indicator is [alertActive]. *)

Definition all_off (status : bool) : Pins :=
  mkPins false false false false status false.

Definition route_output (r : Route) (now : Z) (status : bool) : Pins :=
  let lit := isOn (classify (eta r)) now in
  {| arrow_right := match arrow r with ARROW_RIGHT => lit | _ => false end;
     arrow_left := match arrow r with ARROW_LEFT => lit | _ => false end;
     amber_right := match color r with AMBER_RIGHT => true | _ => false end;
     amber_left := match color r with AMBER_LEFT => true | _ => false end;
     tall_light := status;
     red_led := match color r with RED_LIGHT => true | _ => false end |}.

Definition spec_render (now : Z) (enabled alert : bool) (rs : list Route) : Pins :=
  if negb enabled then all_off alert
  else
    match DisplayManager.findRoute rs (activeSlot now) with
    | Some r => if 0 <? eta r then route_output r now alert else all_off alert
    | None => all_off alert
    end.

(** ** Vocabulary of the message-router claims *)

(** Everything of a route but its ETA. *)
Definition same_attributes (r r' : Route) : Prop :=
  name r' = name r /\ topic r' = topic r /\ type r' = type r /\
  color r' = color r /\ arrow r' = arrow r /\ displaySlot r' = displaySlot r.

Fixpoint all_digits (s : string) : bool :=
  match s with
  | EmptyString => true
  | String c rest => CString.isdigit c && all_digits rest
  end.

(** A payload of the form the route channels expect: a decimal ASCII
    integer, no sign, no decimal point. *)
Definition spec_decimal (s : string) : bool :=
  match s with
  | EmptyString => false
  | String _ _ => all_digits s
  end.

(** The number a string of decimal digits denotes, digit by place value. *)
Fixpoint spec_value (s : string) : Z :=
  match s with
  | EmptyString => 0
  | String c rest =>
      (CString.byte c - 48) * 10 ^ Z.of_nat (String.length rest) + spec_value rest
  end.

Definition is_sign (c : ascii) : bool :=
  (CString.byte c =? 45) || (CString.byte c =? 43).

(** The text begins, after white space and at most one sign, with a
    decimal digit. *)
Definition leading_number (s : string) : bool :=
  match CString.skip_space s with
  | String c rest =>
      if CString.isdigit c then true
      else if is_sign c then
        match rest with
        | String c' _ => CString.isdigit c'
        | EmptyString => false
        end
      else false
  | EmptyString => false
  end.

Fixpoint all_space (s : string) : bool :=
  match s with
  | EmptyString => true
  | String c rest => CString.isspace c && all_space rest
  end.

Definition starts_with_digit (s : string) : bool :=
  match s with
  | String c _ => CString.isdigit c
  | EmptyString => false
  end.

(** The integer written as an optional sign and a run of decimal digits. *)
Definition signed_value (sign ds : string) : Z :=
  if String.eqb sign "-" then - spec_value ds else spec_value ds.

(** ** Reachable states

    The device after [init] and any number of iterations of [loop], each
    with the messages the network delivered and the time [millis()]
    returned. *)

Inductive reachable : Device -> Prop :=
| reachable_init power_on :
    reachable (BusOTron.init (BusOTron.new power_on))
| reachable_loop inbox currentTime d :
    reachable d -> is_ulong currentTime ->
    reachable (BusOTron.loop inbox currentTime d).

(** The route array still is the six routes of the constructor, up to
    their ETAs, each of which is an [int]. *)
Definition registry (rs : list Route) : Prop :=
  Forall2 same_attributes BusOTron.ROUTES rs /\
  Forall (fun r => is_int (eta r)) rs.

(** ** Counting lit indicators *)

Definition lit (b : bool) : nat := if b then 1%nat else 0%nat.

Definition arrows_lit (p : Pins) : nat :=
  (lit (arrow_left p) + lit (arrow_right p))%nat.

Definition colours_lit (p : Pins) : nat :=
  (lit (amber_left p) + lit (amber_right p) + lit (red_led p))%nat.

(** * Properties *)

(** ** Machine integers *)

Lemma to_ulong_id z : is_ulong z -> to_ulong z = z.
Proof.
  unfold is_ulong, ULONG_MAX, to_ulong. intros H.
  apply Z.mod_small. lia.
Qed.

Lemma to_int_id z : is_int z -> to_int z = z.
Proof.
  unfold is_int, INT_MIN, INT_MAX, to_int. intros H.
  rewrite Z.mod_small; lia.
Qed.

Lemma to_int_range z : is_int (to_int z).
Proof.
  unfold is_int, INT_MIN, INT_MAX, to_int.
  pose proof (Z.mod_pos_bound (z + 2 ^ 31) (2 ^ 32)). lia.
Qed.

Lemma to_ulong_range z : is_ulong (to_ulong z).
Proof.
  unfold is_ulong, ULONG_MAX, to_ulong.
  pose proof (Z.mod_pos_bound z (2 ^ 32)). lia.
Qed.

Lemma ulong_add_no_wrap a b :
  0 <= a -> 0 <= b -> a + b <= ULONG_MAX -> ulong_add a b = a + b.
Proof. intros Ha Hb Hab. apply to_ulong_id. unfold is_ulong. lia. Qed.

Lemma int_is_ulong z : 0 <= z <= INT_MAX -> is_ulong z.
Proof. unfold is_ulong, INT_MAX, ULONG_MAX. lia. Qed.

(** ** The urgency classifier *)

(** [updateArrowBlink] is [setArrow] at the level the policy of the ETA
    gives at the current time. *)
Lemma updateArrowBlink_policy direction eta currentTime s :
  LEDController.updateArrowBlink direction eta currentTime s =
  LEDController.setArrow direction (isOn (classify eta) currentTime) s.
Proof.
  unfold LEDController.updateArrowBlink, classify, policy_of_interval.
  destruct (eta <=? 0); [reflexivity|].
  destruct (LEDController.getBlinkInterval eta =? 0); [reflexivity|].
  destruct (LEDController.getBlinkInterval eta =? -1); reflexivity.
Qed.

(** Case analysis on the five comparisons of [getBlinkInterval] and the
    guard of [updateArrowBlink]. *)
Ltac bands eta :=
  unfold classify, policy_of_interval, LEDController.getBlinkInterval,
    LEDController.BLINK_SUPER_FAST, LEDController.BLINK_FAST,
    LEDController.BLINK_MEDIUM, LEDController.BLINK_SLOW;
  destruct (Z.leb_spec eta 0); try lia;
  destruct (Z.ltb_spec eta 90); try lia;
  destruct (Z.ltb_spec eta 300); try lia;
  destruct (Z.ltb_spec eta 600); try lia;
  destruct (Z.ltb_spec eta 900); try lia;
  destruct (Z.ltb_spec eta 5000); try lia;
  try reflexivity.

Lemma classify_off_low eta : eta <= 0 -> classify eta = Off.
Proof. intros H. bands eta. Qed.

Lemma classify_off_high eta : 5000 <= eta -> classify eta = Off.
Proof. intros H. bands eta. Qed.

(** The only intervals the classifier ever hands to the phase test. *)
Lemma classify_interval eta interval :
  classify eta = Blink interval ->
  interval = 180 \/ interval = 360 \/ interval = 600 \/ interval = 900.
Proof.
  bands eta; intros [= <-]; auto.
Qed.

(** C1. The urgency classifier is the decision [updateArrowBlink] takes:
    for every ETA, direction, time and pin state, [updateArrowBlink] drives
    the arrow through [setArrow] at the level the policy [classify eta]
    gives at that time.  That policy follows exact half-open thresholds:
    [eta <= 0] is Off, [0 < eta < 90] blinks at 180 ms, [90 <= eta < 300] at
    360 ms, [300 <= eta < 600] at 600 ms, [600 <= eta < 900] at 900 ms,
    [900 <= eta < 5000] is Solid and [eta >= 5000] is Off; each of the
    boundary values 90, 300, 600, 900 and 5000 falls in the higher band. *)
Theorem classify_thresholds (eta : Z) :
  (forall direction now s,
     LEDController.updateArrowBlink direction eta now s =
     LEDController.setArrow direction (isOn (classify eta) now) s) /\
  (eta <= 0 -> classify eta = Off) /\
  (0 < eta < 90 -> classify eta = Blink 180) /\
  (90 <= eta < 300 -> classify eta = Blink 360) /\
  (300 <= eta < 600 -> classify eta = Blink 600) /\
  (600 <= eta < 900 -> classify eta = Blink 900) /\
  (900 <= eta < 5000 -> classify eta = Solid) /\
  (5000 <= eta -> classify eta = Off) /\
  classify 89 = Blink 180 /\ classify 90 = Blink 360 /\
  classify 299 = Blink 360 /\ classify 300 = Blink 600 /\
  classify 599 = Blink 600 /\ classify 600 = Blink 900 /\
  classify 899 = Blink 900 /\ classify 900 = Solid /\
  classify 4999 = Solid /\ classify 5000 = Off.
Proof.
  split; [intros direction now s; apply updateArrowBlink_policy|].
  repeat split; try reflexivity; intros H; bands eta.
Qed.

Lemma classify_thresholds_witness :
  90 <= 90 < 300 /\ classify 90 = Blink 360 /\
  LEDController.updateArrowBlink ARROW_LEFT 90 14900 (all_off false) =
  LEDController.setArrow ARROW_LEFT true (all_off false).
Proof.
  split; [lia|]. split.
  - apply (proj1 (proj2 (proj2 (proj2 (classify_thresholds 90))))). lia.
  - rewrite (proj1 (classify_thresholds 90) ARROW_LEFT 14900 (all_off false)).
    reflexivity.
Defined.

(** ** The blink phase *)

(** For an interval that is a positive [int] the conversions of line 144
    change nothing: the phase test is [now mod I < I / 2]. *)
Lemma shouldBeOn_formula now interval :
  0 < interval <= INT_MAX ->
  LEDController.shouldBeOn now interval = (now mod interval <? interval / 2).
Proof.
  intros HI. unfold LEDController.shouldBeOn, int_div.
  assert (Hq : interval ÷ 2 = interval / 2) by (apply Z.quot_div_nonneg; lia).
  assert (Hh : 0 <= interval / 2 <= INT_MAX).
  { split; [apply Z.div_pos; lia|].
    pose proof (Z.mul_div_le interval 2). unfold INT_MAX in *. lia. }
  rewrite Hq, (to_ulong_id interval) by (apply int_is_ulong; lia).
  rewrite to_int_id by (unfold is_int, INT_MIN; unfold INT_MAX in *; lia).
  rewrite to_ulong_id by (apply int_is_ulong; lia).
  reflexivity.
Qed.

(** C2 (as the code has it).  For every blink interval [I] that is a
    positive [int] and every 32-bit timestamp [now], the arrow is on exactly
    when [now mod I < I / 2]; under Off it is always off and under Solid
    always on; and the phase at [now + I] is the phase at [now] whenever
    [now + I] is still a 32-bit timestamp, that is, as long as the
    millisecond counter has not wrapped in between. *)
Theorem isOn_phase (interval now : Z) :
  0 < interval <= INT_MAX ->
  is_ulong now ->
  (isOn (Blink interval) now = true <-> now mod interval < interval / 2) /\
  isOn Off now = false /\
  isOn Solid now = true /\
  (now + interval <= ULONG_MAX ->
   isOn (Blink interval) (ulong_add now interval) = isOn (Blink interval) now).
Proof.
  intros HI Hnow. repeat split.
  - simpl. rewrite shouldBeOn_formula by assumption. apply Z.ltb_lt.
  - simpl. rewrite shouldBeOn_formula by assumption. apply Z.ltb_lt.
  - intros Hfit. unfold is_ulong in Hnow.
    rewrite ulong_add_no_wrap by lia. simpl.
    rewrite !shouldBeOn_formula by assumption.
    replace (now + interval) with (now + 1 * interval) by lia.
    rewrite Z.mod_add by lia. reflexivity.
Qed.

Lemma isOn_phase_witness :
  isOn (Blink 360) 14900 = true /\
  isOn (Blink 360) (ulong_add 14900 360) = isOn (Blink 360) 14900.
Proof.
  assert (HI : 0 < 360 <= INT_MAX) by (unfold INT_MAX; lia).
  assert (Hnow : is_ulong 14900) by (unfold is_ulong, ULONG_MAX; lia).
  destruct (isOn_phase 360 14900 HI Hnow) as (Hiff & _ & _ & Hper).
  split.
  - apply Hiff. reflexivity.
  - apply Hper. unfold ULONG_MAX. lia.
Defined.

(** C2 as stated fails where the 32-bit counter wraps: 2^32 is not a
    multiple of 180, so 180 ms after 4294967196 the counter reads 80 and the
    phase has gone from off to on. *)
Lemma isOn_period_wraps :
  isOn (Blink 180) (ulong_add 4294967196 180) <> isOn (Blink 180) 4294967196.
Proof. vm_compute. discriminate. Qed.

(** ** The slot scheduler *)

Lemma currentSlot_formula now :
  DisplayManager.currentSlot now = (now mod 60000) / 10000.
Proof.
  unfold DisplayManager.currentSlot, DisplayManager.DISPLAY_CYCLE_LENGTH,
    DisplayManager.SLOT_DURATION.
  change (to_ulong 60000) with 60000. change (to_ulong 10000) with 10000.
  apply to_int_id.
  pose proof (Z.mod_pos_bound now 60000).
  assert (0 <= now mod 60000 / 10000 < 6).
  { split; [apply Z.div_pos; lia|].
    apply Z.div_lt_upper_bound; lia. }
  unfold is_int, INT_MIN, INT_MAX. lia.
Qed.

Lemma currentSlot_range now : 0 <= DisplayManager.currentSlot now <= 5.
Proof.
  rewrite currentSlot_formula.
  pose proof (Z.mod_pos_bound now 60000).
  split; [apply Z.div_pos; lia|].
  apply Z.lt_succ_r. apply Z.div_lt_upper_bound; lia.
Qed.

(** C3 (as the code has it).  For every 32-bit timestamp [now] the active
    slot is [(now mod 60000) / 10000], equally [(now / 10000) mod 6]; it lies
    in 0..5; it is a function of [now] alone; and the slot at [now + 60000]
    is the slot at [now] whenever [now + 60000] is still a 32-bit
    timestamp. *)
Theorem activeSlot_cycle (now : Z) :
  is_ulong now ->
  activeSlot now = (now mod 60000) / 10000 /\
  activeSlot now = (now / 10000) mod 6 /\
  0 <= activeSlot now <= 5 /\
  (now + 60000 <= ULONG_MAX -> activeSlot (ulong_add now 60000) = activeSlot now).
Proof.
  intros Hnow. unfold activeSlot. repeat split.
  - apply currentSlot_formula.
  - rewrite currentSlot_formula.
    change 60000 with (10000 * 6).
    rewrite Z.rem_mul_r by lia.
    rewrite (Z.mul_comm 10000 (now / 10000 mod 6)).
    rewrite Z.div_add by lia.
    rewrite Z.div_small by (apply Z.mod_pos_bound; lia). lia.
  - apply currentSlot_range.
  - apply currentSlot_range.
  - intros Hfit. unfold is_ulong in Hnow.
    rewrite ulong_add_no_wrap by lia.
    rewrite !currentSlot_formula.
    replace (now + 60000) with (now + 1 * 60000) by lia.
    rewrite Z.mod_add by lia. reflexivity.
Qed.

Lemma activeSlot_cycle_witness :
  activeSlot 15000 = 1 /\ activeSlot (ulong_add 15000 60000) = activeSlot 15000.
Proof.
  assert (Hnow : is_ulong 15000) by (unfold is_ulong, ULONG_MAX; lia).
  destruct (activeSlot_cycle 15000 Hnow) as (Hf & _ & _ & Hper).
  split.
  - rewrite Hf. reflexivity.
  - apply Hper. unfold ULONG_MAX. lia.
Defined.

(** C3 as stated fails where the 32-bit counter wraps: 2^32 is not a
    multiple of 60000, so 60000 ms after 4294967196 (slot 4) the counter
    reads 59900 (slot 5). *)
Lemma activeSlot_period_wraps :
  activeSlot (ulong_add 4294967196 60000) <> activeSlot 4294967196.
Proof. vm_compute. discriminate. Qed.

(** ** The LED controller *)

Lemma turnOffAll_pins s :
  LEDController.turnOffAll s = all_off (tall_light s).
Proof. destruct s. reflexivity. Qed.

Lemma setArrow_pins direction on s :
  LEDController.setArrow direction on s =
  {| arrow_right := match direction with ARROW_RIGHT => on | _ => false end;
     arrow_left := match direction with ARROW_LEFT => on | _ => false end;
     amber_right := amber_right s;
     amber_left := amber_left s;
     tall_light := tall_light s;
     red_led := red_led s |}.
Proof. destruct s, direction, on; reflexivity. Qed.

Lemma setStatusLight_pins on s :
  LEDController.setStatusLight on s =
  mkPins (arrow_right s) (arrow_left s) (amber_right s) (amber_left s) on (red_led s).
Proof. destruct s, on; reflexivity. Qed.

Lemma setColorLight_pins c on s :
  LEDController.setColorLight c on s =
  {| arrow_right := arrow_right s;
     arrow_left := arrow_left s;
     amber_right := match c with AMBER_RIGHT => on | _ => amber_right s end;
     amber_left := match c with AMBER_LEFT => on | _ => amber_left s end;
     tall_light := tall_light s;
     red_led := match c with RED_LIGHT => on | _ => red_led s end |}.
Proof. destruct s, c, on; reflexivity. Qed.

(** The pins after a render tick, in any state: what the specification's
    render loop prescribes for the enable flag, the alert flag and the
    routes. *)
Lemma render_pins now d :
  pins (BusOTron.render now d) =
  spec_render now (systemEnabled d) (alertActive d) (routes d).
Proof.
  unfold BusOTron.render, DisplayManager.update, spec_render, activeSlot.
  destruct (systemEnabled d); simpl.
  - destruct (_ <=? _); simpl;
      (destruct (DisplayManager.findRoute _ _) as [r|]; simpl;
       [|rewrite setStatusLight_pins, turnOffAll_pins; reflexivity];
       destruct (0 <? eta r); simpl;
       [|rewrite setStatusLight_pins, turnOffAll_pins; reflexivity];
       rewrite setStatusLight_pins, updateArrowBlink_policy, setArrow_pins,
         setColorLight_pins, turnOffAll_pins;
       unfold route_output; destruct (color r); reflexivity).
  - rewrite setStatusLight_pins, turnOffAll_pins. reflexivity.
Qed.

Lemma spec_render_arrows now enabled alert rs :
  arrow_left (spec_render now enabled alert rs) &&
  arrow_right (spec_render now enabled alert rs) = false.
Proof.
  unfold spec_render.
  destruct enabled; simpl; [|reflexivity].
  destruct (DisplayManager.findRoute _ _) as [r|]; [|reflexivity].
  destruct (0 <? eta r); [|reflexivity].
  simpl. destruct (arrow r), (isOn (classify (eta r)) now); reflexivity.
Qed.

(** C10. After any [setArrow] call at most one of the two arrow outputs is
    on: the chosen arrow takes the requested level, the opposite arrow is
    driven off, [NO_ARROW] drives both off, and no other pin changes; hence
    every render tick leaves at most one arrow indicator lit. *)
Theorem setArrow_exclusive (direction : ArrowDirection) (on : bool) (s : Pins) :
  let s' := LEDController.setArrow direction on s in
  arrow_left s' && arrow_right s' = false /\
  (direction = ARROW_LEFT -> arrow_left s' = on /\ arrow_right s' = false) /\
  (direction = ARROW_RIGHT -> arrow_right s' = on /\ arrow_left s' = false) /\
  (direction = NO_ARROW -> arrow_left s' = false /\ arrow_right s' = false) /\
  (amber_left s' = amber_left s /\ amber_right s' = amber_right s /\
   red_led s' = red_led s /\ tall_light s' = tall_light s) /\
  (forall now d,
     let p := pins (BusOTron.render now d) in
     arrow_left p && arrow_right p = false).
Proof.
  cbv zeta.
  split; [rewrite setArrow_pins; destruct direction, on; reflexivity|].
  split; [intros ->; rewrite setArrow_pins; split; reflexivity|].
  split; [intros ->; rewrite setArrow_pins; split; reflexivity|].
  split; [intros ->; rewrite setArrow_pins; split; reflexivity|].
  split; [rewrite setArrow_pins; repeat split|].
  intros now d. rewrite render_pins. apply spec_render_arrows.
Qed.

Lemma setArrow_exclusive_witness :
  arrow_left (LEDController.setArrow ARROW_LEFT true (all_off false)) = true /\
  arrow_right (LEDController.setArrow ARROW_LEFT true (all_off false)) = false.
Proof.
  exact (proj1 (proj2 (setArrow_exclusive ARROW_LEFT true (all_off false))) eq_refl).
Defined.

(** ** The render tick *)

Lemma Device_eq (a b : Device) :
  pins a = pins b -> lastStatusPrint a = lastStatusPrint b ->
  systemEnabled a = systemEnabled b -> alertActive a = alertActive b ->
  routes a = routes b -> a = b.
Proof. destruct a, b; simpl; intros; subst; reflexivity. Qed.

(** A render tick writes pins and [lastStatusPrint] only. *)
Lemma render_frame now d :
  systemEnabled (BusOTron.render now d) = systemEnabled d /\
  alertActive (BusOTron.render now d) = alertActive d /\
  routes (BusOTron.render now d) = routes d.
Proof.
  unfold BusOTron.render, DisplayManager.update.
  destruct (systemEnabled d) eqn:He; simpl; [|auto].
  destruct (_ <=? _); simpl;
    (destruct (DisplayManager.findRoute _ _) as [r|]; simpl;
     [destruct (0 <? eta r)|]; unfold with_pins, set_lastStatusPrint; simpl; auto).
Qed.

Lemma render_lastStatusPrint now d :
  lastStatusPrint (BusOTron.render now d) =
  if systemEnabled d &&
     (to_ulong DisplayManager.STATUS_PRINT_INTERVAL <=? ulong_sub now (lastStatusPrint d))
  then now else lastStatusPrint d.
Proof.
  unfold BusOTron.render, DisplayManager.update.
  destruct (systemEnabled d); simpl; [|reflexivity].
  destruct (_ <=? _); simpl;
    (destruct (DisplayManager.findRoute _ _) as [r|]; simpl;
     [destruct (0 <? eta r)|]; reflexivity).
Qed.

(** The lookup of lines 327-333 returns a route of the array that is
    assigned to the slot, the first such one. *)
Lemma findRoute_Some rs slot r :
  DisplayManager.findRoute rs slot = Some r -> In r rs /\ displaySlot r = slot.
Proof.
  induction rs as [|r0 rest IH]; simpl; [discriminate|].
  destruct (Z.eqb_spec (displaySlot r0) slot) as [Heq|Hne].
  - intros [= <-]. split; [left; reflexivity | exact Heq].
  - intros H. destruct (IH H) as [Hin Hs]. split; [right; exact Hin | exact Hs].
Qed.

Lemma findRoute_None rs slot :
  DisplayManager.findRoute rs slot = None <->
  (forall r, In r rs -> displaySlot r <> slot).
Proof.
  induction rs as [|r0 rest IH]; simpl.
  - split; [intros _ r [] | reflexivity].
  - destruct (Z.eqb_spec (displaySlot r0) slot) as [Heq|Hne].
    + split; [discriminate|]. intros H. exfalso. apply (H r0); auto.
    + rewrite IH. split.
      * intros H r [<-|Hin]; auto.
      * intros H r Hin. apply H. right. exact Hin.
Qed.

(** When no two routes share a slot, the route that owns the slot is the
    one the lookup returns. *)
Lemma findRoute_owner rs slot r :
  List.NoDup (map displaySlot rs) -> In r rs -> displaySlot r = slot ->
  DisplayManager.findRoute rs slot = Some r.
Proof.
  induction rs as [|r0 rest IH]; simpl; [intros _ []|].
  intros Hnd Hin Hslot. apply List.NoDup_cons_iff in Hnd as [Hnotin Hnd].
  destruct (Z.eqb_spec (displaySlot r0) slot) as [Heq|Hne].
  - destruct Hin as [->|Hin]; [reflexivity|].
    exfalso. apply Hnotin. rewrite Heq, <- Hslot. apply in_map. exact Hin.
  - destruct Hin as [->|Hin]; [contradiction|]. apply IH; assumption.
Qed.

(** C7. On every render tick with [systemEnabled] false all route
    indicator outputs are off whatever the ETAs of the routes, and the
    status indicator equals [alertActive] on that same tick. *)
Theorem render_disabled (now : Z) (d : Device) :
  systemEnabled d = false ->
  pins (BusOTron.render now d) = all_off (alertActive d).
Proof.
  intros Hoff. rewrite render_pins. unfold spec_render.
  rewrite Hoff. reflexivity.
Qed.

Lemma render_disabled_witness :
  pins (BusOTron.render 15000
          (BusOTron.handleMQTTMessage "devices/busotron/enable" "OFF"
             (BusOTron.handleMQTTMessage "CTApredictions/BUS/1151/77" "240"
                (BusOTron.new (all_off true))))) = all_off false.
Proof. apply (render_disabled 15000). reflexivity. Defined.



(** C9. The indicator output of a render tick is a function of [now], the
    two system booleans and the routes, and the tick changes none of these:
    a second tick at the same [now] produces the same output, and indeed
    leaves the whole device as the first one left it. *)
Theorem render_idempotent (now : Z) (d : Device) :
  pins (BusOTron.render now d) =
    spec_render now (systemEnabled d) (alertActive d) (routes d) /\
  systemEnabled (BusOTron.render now d) = systemEnabled d /\
  alertActive (BusOTron.render now d) = alertActive d /\
  routes (BusOTron.render now d) = routes d /\
  pins (BusOTron.render now (BusOTron.render now d)) = pins (BusOTron.render now d) /\
  BusOTron.render now (BusOTron.render now d) = BusOTron.render now d.
Proof.
  destruct (render_frame now d) as (He & Ha & Hr).
  assert (Hp : pins (BusOTron.render now (BusOTron.render now d)) =
               pins (BusOTron.render now d)).
  { rewrite !render_pins, He, Ha, Hr. reflexivity. }
  split; [apply render_pins|].
  do 3 (split; [assumption|]).
  split; [exact Hp|].
  apply Device_eq; try exact Hp; try apply render_frame.
  rewrite (render_lastStatusPrint now (BusOTron.render now d)), He.
  rewrite render_lastStatusPrint.
  destruct (systemEnabled d); simpl; [|reflexivity].
  destruct (to_ulong DisplayManager.STATUS_PRINT_INTERVAL <=?
            ulong_sub now (lastStatusPrint d)) eqn:Hc.
  - destruct (_ <=? ulong_sub now now); reflexivity.
  - rewrite Hc. reflexivity.
Qed.

(** ** C strings *)

Lemma byte_range c : 0 <= CString.byte c < 256.
Proof.
  unfold CString.byte. pose proof (N_ascii_bounded c). lia.
Qed.

Lemma byte_inj c d : CString.byte c = CString.byte d -> c = d.
Proof.
  unfold CString.byte. intros H. apply N2Z.inj in H.
  rewrite <- (ascii_N_embedding c), <- (ascii_N_embedding d), H. reflexivity.
Qed.

Lemma byte_NUL c : CString.byte c = 0 <-> c = CString.NUL.
Proof.
  split; [|intros ->; reflexivity].
  intros H. apply byte_inj. rewrite H. reflexivity.
Qed.

(** [strcmp] returns zero exactly on equal C strings. *)
Lemma strcmp_0_iff a b :
  CString.strcmp a b = 0 <-> CString.c_str a = CString.c_str b.
Proof.
  revert b. induction a as [|c a' IH]; intros [|d b']; simpl.
  - split; reflexivity.
  - destruct (Ascii.eqb_spec d CString.NUL) as [->|Hd].
    + split; reflexivity.
    + split; [|discriminate]. intros H. exfalso. apply Hd, byte_NUL. lia.
  - destruct (Ascii.eqb_spec c CString.NUL) as [->|Hc].
    + split; reflexivity.
    + split; [|discriminate]. intros H. exfalso. apply Hc, byte_NUL. exact H.
  - destruct (Ascii.eqb_spec c d) as [<-|Hcd].
    + destruct (Ascii.eqb_spec c CString.NUL) as [->|Hc]; [split; reflexivity|].
      rewrite IH. split; [intros ->; reflexivity | intros [= H]; exact H].
    + split.
      * intros H. exfalso. apply Hcd, byte_inj. lia.
      * destruct (Ascii.eqb_spec c CString.NUL), (Ascii.eqb_spec d CString.NUL);
          try discriminate; [congruence|]. intros [= H _]. contradiction.
Qed.

Lemma strcmp_eqb a b :
  (CString.strcmp a b =? 0) = String.eqb (CString.c_str a) (CString.c_str b).
Proof.
  destruct (Z.eqb_spec (CString.strcmp a b) 0) as [H|H];
    destruct (String.eqb_spec (CString.c_str a) (CString.c_str b)) as [E|E];
    try reflexivity; exfalso.
  - apply E, strcmp_0_iff, H.
  - apply H, strcmp_0_iff, E.
Qed.

(** ** The message buffer *)

Lemma substring_0_length n s :
  (String.length (substring 0 n s) <= n)%nat.
Proof.
  revert s. induction n as [|n IH]; intros [|c s]; simpl; try lia.
  specialize (IH s). lia.
Qed.

(** The copy never overruns [message]: at most 15 bytes precede the
    terminator. *)
Lemma receive_length payload :
  (String.length (BusOTron.receive payload) <= 15)%nat.
Proof.
  unfold BusOTron.receive, BusOTron.MESSAGE_SIZE.
  destruct (Z.ltb_spec (Z.of_nat (String.length payload)) 16).
  - lia.
  - apply (substring_0_length 15).
Qed.

Lemma receive_short payload :
  (String.length payload <= 15)%nat -> BusOTron.receive payload = payload.
Proof.
  intros H. unfold BusOTron.receive, BusOTron.MESSAGE_SIZE.
  destruct (Z.ltb_spec (Z.of_nat (String.length payload)) 16); [reflexivity | lia].
Qed.

(** ** [String::toInt] *)

Lemma atol_range s : is_int (CString.atol s).
Proof.
  unfold CString.atol. destruct (CString.read_sign _) as [neg rest].
  unfold is_int, INT_MIN, INT_MAX. lia.
Qed.

Lemma isdigit_byte c : CString.isdigit c = true -> 48 <= CString.byte c <= 57.
Proof. unfold CString.isdigit. lia. Qed.

Lemma c_str_digits s : all_digits s = true -> CString.c_str s = s.
Proof.
  induction s as [|c rest IH]; simpl; [reflexivity|].
  intros [Hc Hrest]%andb_prop. apply isdigit_byte in Hc.
  destruct (Ascii.eqb_spec c CString.NUL) as [->|_].
  - change (CString.byte CString.NUL) with 0 in Hc. lia.
  - rewrite IH by assumption. reflexivity.
Qed.

(** The accumulator of [digits] against place values. *)
Lemma digits_value s : forall acc,
  all_digits s = true ->
  CString.digits acc s = acc * 10 ^ Z.of_nat (String.length s) + spec_value s.
Proof.
  induction s as [|c rest IH]; intros acc; simpl String.length; simpl all_digits.
  - intros _. simpl. lia.
  - intros [Hc Hrest]%andb_prop. simpl CString.digits. rewrite Hc.
    rewrite IH by assumption. simpl spec_value.
    rewrite Nat2Z.inj_succ, Z.pow_succ_r by lia. ring.
Qed.

Lemma spec_value_bound s :
  all_digits s = true -> 0 <= spec_value s < 10 ^ Z.of_nat (String.length s).
Proof.
  induction s as [|c rest IH]; simpl String.length; simpl all_digits.
  - intros _. simpl. lia.
  - intros [Hc Hrest]%andb_prop. apply isdigit_byte in Hc.
    specialize (IH Hrest). simpl spec_value.
    rewrite Nat2Z.inj_succ, Z.pow_succ_r by lia. nia.
Qed.

(** A run of decimal digits whose value fits a [long] is read as the
    number it denotes. *)
Lemma toInt_decimal s :
  spec_decimal s = true -> spec_value s <= INT_MAX ->
  CString.toInt s = spec_value s.
Proof.
  intros Hdec Hfit. unfold CString.toInt.
  destruct s as [|c rest]; [discriminate|]. simpl in Hdec.
  assert (Hall : all_digits (String c rest) = true) by exact Hdec.
  rewrite (c_str_digits (String c rest)) by exact Hall.
  apply andb_prop in Hdec as [Hc Hrest]. apply isdigit_byte in Hc.
  unfold CString.atol. simpl CString.skip_space.
  assert (Hsp : CString.isspace c = false).
  { unfold CString.isspace. lia. }
  rewrite Hsp. unfold CString.read_sign.
  destruct (Z.eqb_spec (CString.byte c) 45); [lia|].
  destruct (Z.eqb_spec (CString.byte c) 43); [lia|].
  rewrite (digits_value (String c rest)) by exact Hall.
  pose proof (spec_value_bound (String c rest) Hall) as Hb.
  unfold INT_MIN. unfold INT_MAX in *. lia.
Qed.

(** A text that does not begin with a number is read as 0. *)
Lemma toInt_no_number s :
  leading_number (CString.c_str s) = false -> CString.toInt s = 0.
Proof.
  unfold leading_number, CString.toInt, CString.atol, CString.read_sign, is_sign.
  destruct (CString.skip_space (CString.c_str s)) as [|c rest]; [reflexivity|].
  destruct (CString.isdigit c) eqn:Hc; [discriminate|].
  destruct (Z.eqb_spec (CString.byte c) 45) as [H45|H45]; simpl.
  - destruct rest as [|c' rest']; [reflexivity|]. intros Hc'. simpl. rewrite Hc'.
    reflexivity.
  - destruct (Z.eqb_spec (CString.byte c) 43) as [H43|H43]; simpl.
    + destruct rest as [|c' rest']; [reflexivity|]. intros Hc'. simpl.
      rewrite Hc'. reflexivity.
    + intros _. rewrite Hc. reflexivity.
Qed.

(** ** The route array under an ETA message *)

Lemma updateEta_no_match rs topic_ eta_ :
  (forall r, In r rs -> CString.strcmp topic_ (topic r) <> 0) ->
  BusOTron.updateEta rs topic_ eta_ = rs.
Proof.
  induction rs as [|r0 rest IH]; simpl; [reflexivity|].
  intros H. destruct (Z.eqb_spec (CString.strcmp topic_ (topic r0)) 0) as [E|_].
  - exfalso. apply (H r0); auto.
  - rewrite IH; [reflexivity|]. intros r Hin. apply H. right. exact Hin.
Qed.

(** The assignment of line 483 lands on the first route whose topic
    matches, and on that one alone. *)
Lemma updateEta_first_match (rs : list Route) topic_ eta_ : forall (i : nat) (r : Route),
  rs !! i = Some r ->
  CString.strcmp topic_ (topic r) = 0 ->
  (forall (j : nat) r', (j < i)%nat -> rs !! j = Some r' ->
     CString.strcmp topic_ (topic r') <> 0) ->
  BusOTron.updateEta rs topic_ eta_ = <[i := set_eta eta_ r]> rs.
Proof.
  induction rs as [|r0 rest IH]; intros i r Hi Hmatch Hfirst; [discriminate|].
  simpl BusOTron.updateEta. destruct i as [|i].
  - injection Hi as ->. rewrite Hmatch. reflexivity.
  - destruct (Z.eqb_spec (CString.strcmp topic_ (topic r0)) 0) as [E|_].
    + exfalso. apply (Hfirst 0%nat r0); [lia | reflexivity | exact E].
    + simpl. f_equal. apply IH; [exact Hi | exact Hmatch |].
      intros j r' Hj Hl. apply (Hfirst (S j) r'); [lia | exact Hl].
Qed.

Lemma updateEta_cases (rs : list Route) topic_ eta_ :
  (BusOTron.updateEta rs topic_ eta_ = rs /\
   forall r, In r rs -> CString.strcmp topic_ (topic r) <> 0) \/
  (exists (i : nat) (r : Route),
     rs !! i = Some r /\ CString.strcmp topic_ (topic r) = 0 /\
     BusOTron.updateEta rs topic_ eta_ = <[i := set_eta eta_ r]> rs).
Proof.
  induction rs as [|r0 rest IH]; simpl.
  - left. split; [reflexivity | intros r []].
  - destruct (Z.eqb_spec (CString.strcmp topic_ (topic r0)) 0) as [E|N].
    + right. exists 0%nat, r0. auto.
    + destruct IH as [[Heq Hno]|(i & r & Hi & Hm & Heq)].
      * left. split; [rewrite Heq; reflexivity|].
        intros r [<-|Hin]; auto.
      * right. exists (S i), r. simpl. rewrite Heq. auto.
Qed.

Lemma set_eta_attributes v r : same_attributes r (set_eta v r).
Proof. unfold same_attributes. simpl. auto 10. Qed.

Lemma same_attributes_refl r : same_attributes r r.
Proof. unfold same_attributes. auto 10. Qed.

Lemma updateEta_attributes rs topic_ eta_ :
  Forall2 same_attributes rs (BusOTron.updateEta rs topic_ eta_).
Proof.
  induction rs as [|r0 rest IH]; simpl; [constructor|].
  destruct (CString.strcmp topic_ (topic r0) =? 0).
  - constructor; [apply set_eta_attributes|].
    clear IH. induction rest; constructor; auto using same_attributes_refl.
  - constructor; [apply same_attributes_refl | exact IH].
Qed.

(** ** The message router *)

Lemma control_topics_differ topic_ :
  CString.strcmp topic_ BusOTron.ALERT_TOPIC = 0 ->
  CString.strcmp topic_ BusOTron.ENABLE_TOPIC <> 0.
Proof.
  rewrite !strcmp_0_iff. intros -> H. discriminate H.
Qed.

(** C6. A message on the enable channel sets [systemEnabled] to true
    exactly when the truncated, decoded payload is the text ON, and to false
    for every other payload; a message on the alert channel does the same to
    [alertActive]. *)
Theorem control_message (topic_ payload : string) (d : Device) :
  let message := CString.c_str (BusOTron.receive payload) in
  let d' := BusOTron.handleMQTTMessage topic_ payload d in
  (CString.strcmp topic_ BusOTron.ENABLE_TOPIC = 0 ->
   (systemEnabled d' = true <-> message = "ON"%string) /\
   (systemEnabled d' = false <-> message <> "ON"%string)) /\
  (CString.strcmp topic_ BusOTron.ALERT_TOPIC = 0 ->
   (alertActive d' = true <-> message = "ON"%string) /\
   (alertActive d' = false <-> message <> "ON"%string)).
Proof.
  cbv zeta. unfold BusOTron.handleMQTTMessage. split.
  - intros ->. simpl. rewrite strcmp_eqb.
    change (CString.c_str "ON") with "ON"%string.
    destruct (String.eqb_spec (CString.c_str (BusOTron.receive payload)) "ON");
      split; split; congruence.
  - intros Halert. pose proof (control_topics_differ _ Halert) as Hne.
    apply Z.eqb_neq in Hne. rewrite Hne, Halert. simpl. rewrite strcmp_eqb.
    change (CString.c_str "ON") with "ON"%string.
    destruct (String.eqb_spec (CString.c_str (BusOTron.receive payload)) "ON");
      split; split; congruence.
Qed.

Lemma control_message_witness :
  systemEnabled
    (BusOTron.handleMQTTMessage "devices/busotron/enable" "ON"
       (set_systemEnabled false (BusOTron.new (all_off true)))) = true /\
  alertActive
    (BusOTron.handleMQTTMessage "CTApredictions/alert/active" "on"
       (set_alertActive true (BusOTron.new (all_off true)))) = false.
Proof.
  split.
  - apply (proj2 (proj1 (proj1 (control_message "devices/busotron/enable" "ON"
                    (set_systemEnabled false (BusOTron.new (all_off true))))
             eq_refl))).
    reflexivity.
  - apply (proj2 (proj2 (proj2 (control_message "CTApredictions/alert/active" "on"
                    (set_alertActive true (BusOTron.new (all_off true))))
             eq_refl))).
    discriminate.
Defined.

(** C5. One call of the message router writes at most one piece of state,
    chosen by the channel key: [systemEnabled] on the enable channel,
    [alertActive] on the alert channel, otherwise the ETA of the one route
    whose topic matches first.  Pins and [lastStatusPrint] are never written,
    every route keeps its name, topic, type, colour, arrow and slot, and a
    message whose key matches no control channel and no route leaves the
    whole state as it was. *)
Theorem handleMQTTMessage_frame (topic_ payload : string) (d : Device) :
  let d' := BusOTron.handleMQTTMessage topic_ payload d in
  pins d' = pins d /\
  lastStatusPrint d' = lastStatusPrint d /\
  Forall2 same_attributes (routes d) (routes d') /\
  (CString.strcmp topic_ BusOTron.ENABLE_TOPIC = 0 ->
   exists b, d' = set_systemEnabled b d) /\
  (CString.strcmp topic_ BusOTron.ENABLE_TOPIC <> 0 ->
   CString.strcmp topic_ BusOTron.ALERT_TOPIC = 0 ->
   exists b, d' = set_alertActive b d) /\
  (CString.strcmp topic_ BusOTron.ENABLE_TOPIC <> 0 ->
   CString.strcmp topic_ BusOTron.ALERT_TOPIC <> 0 ->
   systemEnabled d' = systemEnabled d /\
   alertActive d' = alertActive d /\
   (d' = d \/
    exists (i : nat) (r : Route) (v : Z),
      routes d !! i = Some r /\
      CString.strcmp topic_ (topic r) = 0 /\
      routes d' = <[i := set_eta v r]> (routes d))) /\
  (CString.strcmp topic_ BusOTron.ENABLE_TOPIC <> 0 ->
   CString.strcmp topic_ BusOTron.ALERT_TOPIC <> 0 ->
   (forall r, In r (routes d) -> CString.strcmp topic_ (topic r) <> 0) ->
   d' = d).
Proof.
  cbv zeta. unfold BusOTron.handleMQTTMessage.
  set (flag := CString.strcmp (BusOTron.receive payload) "ON" =? 0).
  set (v := to_int (CString.toInt (BusOTron.receive payload))).
  assert (Hsame : forall rs : list Route, Forall2 same_attributes rs rs).
  { induction rs; constructor; auto using same_attributes_refl. }
  destruct (Z.eqb_spec (CString.strcmp topic_ BusOTron.ENABLE_TOPIC) 0) as [He|He];
    [|destruct (Z.eqb_spec (CString.strcmp topic_ BusOTron.ALERT_TOPIC) 0) as [Ha|Ha]].
  - simpl. repeat (split; [auto; fail|]).
    split; [intros _; exists flag; reflexivity|].
    repeat split; intros; contradiction.
  - simpl. repeat (split; [auto; fail|]).
    split; [intros; contradiction|].
    split; [intros _ _; exists flag; reflexivity|].
    split; intros; contradiction.
  - simpl. do 2 (split; [reflexivity|]).
    split; [apply updateEta_attributes|].
    split; [intros; contradiction|].
    split; [intros; contradiction|].
    split.
    + intros _ _. do 2 (split; [reflexivity|]).
      destruct (updateEta_cases (routes d) topic_ v)
        as [[Heq _]|(i & r & Hi & Hm & Heq)].
      * left. rewrite Heq. destruct d; reflexivity.
      * right. exists i, r, v. auto.
    + intros _ _ Hno. rewrite (updateEta_no_match _ _ _ Hno).
      destruct d; reflexivity.
Qed.

Lemma handleMQTTMessage_frame_witness :
  BusOTron.handleMQTTMessage "bogus" "99" (BusOTron.new (all_off true)) =
  BusOTron.new (all_off true).
Proof.
  apply (proj2 (proj2 (proj2 (proj2 (proj2 (proj2
           (handleMQTTMessage_frame "bogus" "99" (BusOTron.new (all_off true))))))))).
  - vm_compute. discriminate.
  - vm_compute. discriminate.
  - simpl. intros r [<-|[<-|[<-|[<-|[<-|[<-|[]]]]]]]; vm_compute; discriminate.
Defined.

Lemma skip_space_app ws s :
  all_space ws = true ->
  CString.skip_space (ws ++ s)%string = CString.skip_space s.
Proof.
  induction ws as [|c ws IH]; simpl; [reflexivity|].
  intros [Hc Hws]%andb_prop. rewrite Hc. apply IH, Hws.
Qed.

Lemma digits_app ds tail : forall acc,
  all_digits ds = true -> starts_with_digit tail = false ->
  CString.digits acc (ds ++ tail)%string =
  acc * 10 ^ Z.of_nat (String.length ds) + spec_value ds.
Proof.
  induction ds as [|c rest IH]; intros acc Hds Htail.
  - simpl. destruct tail as [|c tail]; simpl in *; [lia|].
    rewrite Htail. lia.
  - simpl in Hds. apply andb_prop in Hds as [Hc Hrest].
    simpl CString.digits. rewrite Hc.
    rewrite IH by assumption. simpl String.length. simpl spec_value.
    rewrite Nat2Z.inj_succ, Z.pow_succ_r by lia. ring.
Qed.

(** White space, at most one sign, one digit or more, then anything that
    does not go on with a digit: [atol] reads the signed number, limited to
    the range of [long]. *)
Lemma atol_number ws sign ds tail :
  all_space ws = true ->
  (sign = "" \/ sign = "-" \/ sign = "+")%string ->
  spec_decimal ds = true ->
  starts_with_digit tail = false ->
  CString.atol (ws ++ sign ++ ds ++ tail)%string =
  Z.max INT_MIN (Z.min INT_MAX (signed_value sign ds)).
Proof.
  intros Hws Hsign Hds Htail. unfold CString.atol.
  rewrite skip_space_app by exact Hws.
  destruct ds as [|c rest]; [discriminate|]. simpl in Hds.
  assert (Hall : all_digits (String c rest) = true) by exact Hds.
  apply andb_prop in Hds as [Hc _]. apply isdigit_byte in Hc.
  assert (Hsp : CString.isspace c = false) by (unfold CString.isspace; lia).
  unfold signed_value.
  destruct Hsign as [->|[->| ->]]; simpl String.append; simpl CString.skip_space.
  - rewrite Hsp. unfold CString.read_sign.
    destruct (Z.eqb_spec (CString.byte c) 45); [lia|].
    destruct (Z.eqb_spec (CString.byte c) 43); [lia|].
    change (String c (rest ++ tail)%string) with (String c rest ++ tail)%string.
    rewrite digits_app by assumption. simpl String.eqb.
    rewrite Z.mul_0_l, Z.add_0_l. reflexivity.
  - simpl CString.read_sign. cbv beta iota zeta.
    change (String c (rest ++ tail)%string) with (String c rest ++ tail)%string.
    rewrite digits_app by assumption. simpl String.eqb.
    rewrite Z.mul_0_l, Z.add_0_l. reflexivity.
  - simpl CString.read_sign. cbv beta iota zeta.
    change (String c (rest ++ tail)%string) with (String c rest ++ tail)%string.
    rewrite digits_app by assumption. simpl String.eqb.
    rewrite Z.mul_0_l, Z.add_0_l. reflexivity.
Qed.

(** C4 (as the code has it).  A payload delivered on a route's channel key
    overwrites the ETA of that route, the first whose topic matches, with
    what [String::toInt] reads in the truncated payload, and nothing else of
    the array.  The copy into the 16-byte buffer keeps at most 15 bytes and
    the value stored is an [int], so no payload makes the handler fail.  A
    payload of at most 15 decimal digits whose value fits an [int] is stored
    as the number it denotes.  More generally, when the truncated payload is
    white space, at most one sign, one decimal digit or more and then
    anything that does not go on with a digit, the ETA stored is the number
    the digits denote, negated after a minus sign, provided it fits an
    [int]: a signed payload or a number followed by other text is stored as
    that number, not as 0.  A payload that does not begin, after white space
    and at most one sign, with a decimal digit is stored as 0. *)
Theorem route_message_eta (topic_ payload : string) (d : Device)
    (i : nat) (r : Route) :
  CString.strcmp topic_ BusOTron.ENABLE_TOPIC <> 0 ->
  CString.strcmp topic_ BusOTron.ALERT_TOPIC <> 0 ->
  routes d !! i = Some r ->
  CString.strcmp topic_ (topic r) = 0 ->
  (forall (j : nat) r', (j < i)%nat -> routes d !! j = Some r' ->
     CString.strcmp topic_ (topic r') <> 0) ->
  let message := BusOTron.receive payload in
  let v := CString.toInt message in
  routes (BusOTron.handleMQTTMessage topic_ payload d) =
    <[i := set_eta v r]> (routes d) /\
  is_int v /\
  (String.length message <= 15)%nat /\
  (spec_decimal payload = true -> (String.length payload <= 15)%nat ->
   spec_value payload <= INT_MAX -> v = spec_value payload) /\
  (leading_number (CString.c_str message) = false -> v = 0) /\
  (forall ws sign ds tail,
     CString.c_str message = (ws ++ sign ++ ds ++ tail)%string ->
     all_space ws = true ->
     (sign = "" \/ sign = "-" \/ sign = "+")%string ->
     spec_decimal ds = true ->
     starts_with_digit tail = false ->
     is_int (signed_value sign ds) ->
     v = signed_value sign ds).
Proof.
  intros He Ha Hi Hm Hfirst. cbv zeta.
  assert (Hint : is_int (CString.toInt (BusOTron.receive payload)))
    by apply atol_range.
  split; [|split; [exact Hint|split; [apply receive_length|split; [|split]]]].
  - unfold BusOTron.handleMQTTMessage.
    apply Z.eqb_neq in He, Ha. rewrite He, Ha. simpl.
    rewrite (to_int_id _ Hint).
    apply updateEta_first_match; assumption.
  - intros Hdec Hlen Hfit. rewrite receive_short by exact Hlen.
    apply toInt_decimal; assumption.
  - apply toInt_no_number.
  - intros ws sign ds tail Hshape Hws Hsign Hds Htail Hfit.
    unfold CString.toInt. rewrite Hshape.
    rewrite atol_number by assumption.
    unfold is_int in Hfit. lia.
Qed.

Lemma route_message_eta_witness :
  eta <$> routes (BusOTron.handleMQTTMessage "CTApredictions/BUS/1151/77" "240"
                    (BusOTron.new (all_off true))) =
  [0; 240; 0; 0; 0; 0] /\
  CString.toInt (BusOTron.receive " -5 min") = -5.
Proof.
  pose (r := Route_new "Route 77 West" "CTApredictions/BUS/1151/77"
               BUS_ROUTE AMBER_LEFT ARROW_RIGHT 1).
  assert (He : CString.strcmp "CTApredictions/BUS/1151/77" BusOTron.ENABLE_TOPIC <> 0)
    by (vm_compute; discriminate).
  assert (Ha : CString.strcmp "CTApredictions/BUS/1151/77" BusOTron.ALERT_TOPIC <> 0)
    by (vm_compute; discriminate).
  assert (Hfirst : forall (j : nat) r', (j < 1)%nat ->
            routes (BusOTron.new (all_off true)) !! j = Some r' ->
            CString.strcmp "CTApredictions/BUS/1151/77" (topic r') <> 0).
  { intros [|j] r' Hj; [|lia]. intros [= <-]. vm_compute. discriminate. }
  split.
  - rewrite (proj1 (route_message_eta "CTApredictions/BUS/1151/77" "240"
                      (BusOTron.new (all_off true)) 1%nat r He Ha eq_refl eq_refl Hfirst)).
    reflexivity.
  - apply (proj2 (proj2 (proj2 (proj2 (proj2
             (route_message_eta "CTApredictions/BUS/1151/77" " -5 min"
                (BusOTron.new (all_off true)) 1%nat r He Ha eq_refl eq_refl Hfirst)))))
             " " "-" "5" " min")%string.
    + reflexivity.
    + reflexivity.
    + right. left. reflexivity.
    + reflexivity.
    + reflexivity.
    + vm_compute. split; discriminate.
Defined.

(** C4 as stated fails on payloads that are not decimal integers yet begin
    with a number: [-5] is stored as -5 and [12abc] as 12, not as 0. *)
Lemma signed_payload_stored :
  spec_decimal "-5" = false /\
  eta <$> routes (BusOTron.handleMQTTMessage "CTApredictions/BUS/1151/77" "-5"
                    (BusOTron.new (all_off true))) =
  [0; -5; 0; 0; 0; 0] /\
  spec_decimal "12abc" = false /\
  eta <$> routes (BusOTron.handleMQTTMessage "CTApredictions/BUS/1151/77" "12abc"
                    (BusOTron.new (all_off true))) =
  [0; 12; 0; 0; 0; 0].
Proof. repeat split. Qed.

(** ** The registry in every reachable state *)

Lemma same_attributes_trans r1 r2 r3 :
  same_attributes r1 r2 -> same_attributes r2 r3 -> same_attributes r1 r3.
Proof.
  unfold same_attributes.
  intros (? & ? & ? & ? & ? & ?) (? & ? & ? & ? & ? & ?).
  repeat split; congruence.
Qed.

Lemma updateEta_int rs topic_ eta_ :
  is_int eta_ -> Forall (fun r => is_int (eta r)) rs ->
  Forall (fun r => is_int (eta r)) (BusOTron.updateEta rs topic_ eta_).
Proof.
  intros Hv. induction 1 as [|r0 rest H0 Hrest IH]; simpl; [constructor|].
  destruct (CString.strcmp topic_ (topic r0) =? 0); constructor; assumption.
Qed.

Lemma ROUTES_count : Z.of_nat (length BusOTron.ROUTES) = BusOTron.ROUTE_COUNT.
Proof. reflexivity. Qed.

Lemma registry_ROUTES : registry BusOTron.ROUTES.
Proof.
  split.
  - repeat constructor.
  - repeat constructor; vm_compute; discriminate.
Qed.

Lemma handleMQTTMessage_registry topic_ payload d :
  registry (routes d) -> registry (routes (BusOTron.handleMQTTMessage topic_ payload d)).
Proof.
  intros [Hattr Hint]. unfold BusOTron.handleMQTTMessage.
  destruct (_ =? 0); [split; assumption|].
  destruct (_ =? 0); [split; assumption|].
  simpl. split.
  - apply (Forall2_trans same_attributes same_attributes same_attributes
             BusOTron.ROUTES (routes d));
      [exact same_attributes_trans | exact Hattr | apply updateEta_attributes].
  - apply updateEta_int; [apply to_int_range | exact Hint].
Qed.

Lemma deliver_registry inbox : forall d,
  registry (routes d) -> registry (routes (BusOTron.deliver inbox d)).
Proof.
  induction inbox as [|[t p] rest IH]; intros d H; simpl; [exact H|].
  apply IH, handleMQTTMessage_registry, H.
Qed.

Lemma reachable_registry d : reachable d -> registry (routes d).
Proof.
  induction 1 as [p|inbox now d _ IH _].
  - apply registry_ROUTES.
  - unfold BusOTron.loop.
    rewrite (proj2 (proj2 (render_frame now (BusOTron.deliver inbox d)))).
    apply deliver_registry, IH.
Qed.

(** In a reachable state every slot of the cycle has its route: the
    lookup of the render tick always finds one, and it is the only route
    assigned to the slot. *)
Lemma registry_owner rs now :
  registry rs ->
  exists r, DisplayManager.findRoute rs (activeSlot now) = Some r /\
            displaySlot r = activeSlot now /\
            forall r', In r' rs -> displaySlot r' = activeSlot now -> r' = r.
Proof.
  intros [Hattr _]. unfold BusOTron.ROUTES in Hattr.
  repeat match goal with
         | H : Forall2 _ (_ :: _) _ |- _ =>
             apply Forall2_cons_inv_l in H as (? & ? & (_ & _ & _ & _ & _ & ?) & ? & ->)
         | H : Forall2 _ [] _ |- _ => apply Forall2_nil_inv_l in H as ->
         end.
  simpl in *.
  pose proof (currentSlot_range now) as Hr. unfold activeSlot.
  set (slot := DisplayManager.currentSlot now) in *.
  assert (Hs : slot = 0 \/ slot = 1 \/ slot = 2 \/ slot = 3 \/ slot = 4 \/ slot = 5) by lia.
  repeat match goal with H : displaySlot _ = _ |- _ => rewrite H end.
  destruct Hs as [->|[->|[->|[->|[->| ->]]]]]; simpl;
    eexists; (split; [reflexivity|]); (split; [assumption|]);
    intros r' Hin Hslot;
    repeat (destruct Hin as [<-|Hin]; [congruence|]); destruct Hin.
Qed.

(** ** The scenarios of the specification *)

Example scenario_no_updates alert :
  pins (BusOTron.render 0 (set_alertActive alert (BusOTron.new (all_off true)))) =
  all_off alert.
Proof. destruct alert; reflexivity. Qed.

Example scenario_route_77 :
  let d := BusOTron.handleMQTTMessage "CTApredictions/BUS/1151/77" "240"
             (BusOTron.new (all_off true)) in
  eta <$> routes d = [0; 240; 0; 0; 0; 0] /\
  activeSlot 15000 = 1 /\
  classify 240 = Blink 360 /\
  arrow_right (pins (BusOTron.render 15000 d)) = false /\
  arrow_right (pins (BusOTron.render 15060 d)) = false /\
  arrow_right (pins (BusOTron.render 14900 d)) = true /\
  amber_left (pins (BusOTron.render 15000 d)) = true.
Proof. repeat split. Qed.

Example scenario_disable :
  let d := BusOTron.handleMQTTMessage "CTApredictions/BUS/1151/77" "240"
             (BusOTron.new (all_off true)) in
  pins (BusOTron.loop [("devices/busotron/enable", "OFF")]%string 14900 d) =
  all_off false.
Proof. reflexivity. Qed.

Example scenario_unknown_topic :
  BusOTron.handleMQTTMessage "bogus" "99" (BusOTron.new (all_off true)) =
  BusOTron.new (all_off true).
Proof. reflexivity. Qed.

Example scenario_oversized_payload :
  BusOTron.receive "12345678901234567890" = "123456789012345"%string /\
  eta <$> routes (BusOTron.handleMQTTMessage "CTApredictions/BUS/1151/77"
                    "0000000000000420000" (BusOTron.new (all_off true))) =
  [0; 42; 0; 0; 0; 0].
Proof. repeat split. Qed.

(** * Further properties of the code *)

(** ** LED controller: which pins each call writes *)

(** X1. The three setters write disjoint pins, so the order in which the
    display manager and the main loop call them does not matter: the colour
    light, the arrows and the status light commute with one another, and
    clearing the route LEDs commutes with the status light. *)
Theorem led_setters_commute (c : LightColor) (b : bool) (direction : ArrowDirection)
    (on status : bool) (s : Pins) :
  LEDController.setColorLight c b (LEDController.setArrow direction on s) =
    LEDController.setArrow direction on (LEDController.setColorLight c b s) /\
  LEDController.setStatusLight status (LEDController.setArrow direction on s) =
    LEDController.setArrow direction on (LEDController.setStatusLight status s) /\
  LEDController.setStatusLight status (LEDController.setColorLight c b s) =
    LEDController.setColorLight c b (LEDController.setStatusLight status s) /\
  LEDController.setStatusLight status (LEDController.turnOffAll s) =
    LEDController.turnOffAll (LEDController.setStatusLight status s).
Proof.
  destruct s, c, b, direction, on, status; repeat split.
Qed.

(** The pins after [DisplayManager::update], whatever they were before. *)
Lemma update_pins currentTime enabled d :
  pins (DisplayManager.update currentTime enabled d) =
  spec_render currentTime enabled (tall_light (pins d)) (routes d).
Proof.
  unfold DisplayManager.update, spec_render, activeSlot.
  destruct enabled; simpl.
  - destruct (_ <=? _); simpl;
      (destruct (DisplayManager.findRoute _ _) as [r|]; simpl;
       [|rewrite turnOffAll_pins; reflexivity];
       destruct (0 <? eta r); simpl;
       [|rewrite turnOffAll_pins; reflexivity];
       rewrite updateArrowBlink_policy, setArrow_pins,
         setColorLight_pins, turnOffAll_pins;
       unfold route_output; destruct (color r); reflexivity).
  - rewrite turnOffAll_pins. reflexivity.
Qed.

Lemma spec_render_status now enabled alert rs :
  tall_light (spec_render now enabled alert rs) = alert.
Proof.
  unfold spec_render. destruct enabled; simpl; [|reflexivity].
  destruct (DisplayManager.findRoute _ _) as [r|]; [|reflexivity].
  destruct (0 <? eta r); reflexivity.
Qed.

(** X2. [DisplayManager::update] never writes the status light, and the
    five route LEDs it leaves behind do not depend on the levels the pins had
    before the call: no LED of an earlier slot stays lit. *)
Theorem update_no_stale_pins (currentTime : Z) (enabled : bool) (d : Device)
    (before : Pins) :
  tall_light (pins (DisplayManager.update currentTime enabled d)) =
    tall_light (pins d) /\
  forall status,
    LEDController.setStatusLight status
      (pins (DisplayManager.update currentTime enabled
               (with_pins (fun _ => before) d))) =
    LEDController.setStatusLight status
      (pins (DisplayManager.update currentTime enabled d)).
Proof.
  split.
  - rewrite update_pins. apply spec_render_status.
  - intros status. rewrite !update_pins, !setStatusLight_pins. simpl.
    unfold spec_render. destruct enabled; simpl; [|reflexivity].
    destruct (DisplayManager.findRoute _ _) as [r|]; [|reflexivity].
    destruct (0 <? eta r); reflexivity.
Qed.

(** ** What the display shows *)

(** X3. Within one display slot only the arrow can change: the three
    colour indicators and the status light are the same at any two times of
    the same slot, so the colour light of a route never blinks. *)
Theorem colour_steady_in_slot (t1 t2 : Z) (d : Device) :
  activeSlot t1 = activeSlot t2 ->
  let p1 := pins (BusOTron.render t1 d) in
  let p2 := pins (BusOTron.render t2 d) in
  amber_left p1 = amber_left p2 /\ amber_right p1 = amber_right p2 /\
  red_led p1 = red_led p2 /\ tall_light p1 = tall_light p2.
Proof.
  intros Hslot. cbv zeta. rewrite !render_pins. unfold spec_render.
  rewrite Hslot. destruct (systemEnabled d); simpl; [|auto].
  destruct (DisplayManager.findRoute _ _) as [r|]; [|auto].
  destruct (0 <? eta r); simpl; auto.
Qed.

Lemma colour_steady_in_slot_witness :
  amber_left (pins (BusOTron.render 14900
     (BusOTron.handleMQTTMessage "CTApredictions/BUS/1151/77" "240"
        (BusOTron.new (all_off true))))) =
  amber_left (pins (BusOTron.render 15000
     (BusOTron.handleMQTTMessage "CTApredictions/BUS/1151/77" "240"
        (BusOTron.new (all_off true))))).
Proof.
  exact (proj1 (colour_steady_in_slot 14900 15000
                  (BusOTron.handleMQTTMessage "CTApredictions/BUS/1151/77" "240"
                     (BusOTron.new (all_off true))) eq_refl)).
Defined.

(** X4. For the route shown in the active slot, an ETA of 900 to 4999
    seconds lights its colour and its arrow steadily at every instant, and an
    ETA of 5000 seconds or more still lights its colour indicator while both
    arrows stay off. *)
Theorem distant_arrival (now : Z) (d : Device) (r : Route) :
  systemEnabled d = true ->
  DisplayManager.findRoute (routes d) (activeSlot now) = Some r ->
  (900 <= eta r < 5000 ->
   pins (BusOTron.render now d) =
   LEDController.setArrow (arrow r) true
     (LEDController.setColorLight (color r) true (all_off (alertActive d)))) /\
  (5000 <= eta r ->
   pins (BusOTron.render now d) =
   LEDController.setColorLight (color r) true (all_off (alertActive d))).
Proof.
  intros Hon Hfind. rewrite render_pins. unfold spec_render.
  rewrite Hon, Hfind. simpl.
  rewrite setArrow_pins, !setColorLight_pins. unfold route_output. simpl.
  split; intros Heta.
  - destruct (Z.ltb_spec 0 (eta r)); [|lia].
    replace (classify (eta r)) with Solid by (symmetry; bands (eta r)).
    simpl. destruct (color r), (arrow r); reflexivity.
  - destruct (Z.ltb_spec 0 (eta r)); [|lia].
    rewrite classify_off_high by exact Heta.
    simpl. destruct (color r), (arrow r); reflexivity.
Qed.

Lemma distant_arrival_witness :
  pins (BusOTron.render 15000
          (BusOTron.handleMQTTMessage "CTApredictions/BUS/1151/77" "6000"
             (BusOTron.new (all_off true)))) =
  {| arrow_right := false; arrow_left := false; amber_right := false;
     amber_left := true; tall_light := false; red_led := false |}.
Proof.
  pose (d := BusOTron.handleMQTTMessage "CTApredictions/BUS/1151/77" "6000"
               (BusOTron.new (all_off true))).
  pose (r := set_eta 6000
               (Route_new "Route 77 West" "CTApredictions/BUS/1151/77"
                  BUS_ROUTE AMBER_LEFT ARROW_RIGHT 1)).
  apply (proj2 (distant_arrival 15000 d r eq_refl eq_refl)).
  simpl. lia.
Defined.

(** X5. While no route has a positive ETA, as before the first message
    arrives, every render tick leaves all route indicators off at every
    time, with the system enabled or not. *)
Theorem no_data_dark (now : Z) (d : Device) :
  (forall r, In r (routes d) -> eta r <= 0) ->
  pins (BusOTron.render now d) = all_off (alertActive d).
Proof.
  intros Hno. rewrite render_pins. unfold spec_render.
  destruct (systemEnabled d); simpl; [|reflexivity].
  destruct (DisplayManager.findRoute _ _) as [r|] eqn:Hfind; [|reflexivity].
  apply findRoute_Some in Hfind as [Hin _]. specialize (Hno r Hin).
  destruct (Z.ltb_spec 0 (eta r)); [lia | reflexivity].
Qed.

Lemma no_data_dark_witness :
  pins (BusOTron.render 123456 (BusOTron.init (BusOTron.new (all_off false)))) =
  all_off false.
Proof.
  apply (no_data_dark 123456 (BusOTron.init (BusOTron.new (all_off false)))).
  simpl. intros r [<-|[<-|[<-|[<-|[<-|[<-|[]]]]]]]; simpl; lia.
Defined.

(** X6. The status print is throttled in wrap-around time: a disabled
    tick never moves [lastStatusPrint]; an enabled tick moves it to the
    current time exactly when at least 5000 ms have passed on the 32-bit
    counter since the last print; and after every enabled tick less than
    5000 ms separate the current time from the recorded print. *)
Theorem status_print_throttle (now : Z) (d : Device) :
  let d' := BusOTron.render now d in
  let elapsed := ulong_sub now (lastStatusPrint d) in
  (systemEnabled d = false -> lastStatusPrint d' = lastStatusPrint d) /\
  (systemEnabled d = true ->
   (5000 <= elapsed -> lastStatusPrint d' = now) /\
   (elapsed < 5000 -> lastStatusPrint d' = lastStatusPrint d) /\
   ulong_sub now (lastStatusPrint d') < 5000).
Proof.
  cbv zeta. rewrite render_lastStatusPrint.
  change (to_ulong DisplayManager.STATUS_PRINT_INTERVAL) with 5000.
  split; intros ->; simpl; [reflexivity|].
  destruct (Z.leb_spec 5000 (ulong_sub now (lastStatusPrint d))) as [Hdue|Hnot].
  - split; [reflexivity|]. split; [lia|].
    unfold ulong_sub. rewrite Z.sub_diag. reflexivity.
  - split; [lia|]. split; [reflexivity | exact Hnot].
Qed.

Lemma status_print_throttle_witness :
  lastStatusPrint
    (BusOTron.render 4500
       (set_lastStatusPrint 4294966296 (BusOTron.new (all_off true)))) = 4500.
Proof.
  apply (proj1 (proj2 (status_print_throttle 4500
           (set_lastStatusPrint 4294966296 (BusOTron.new (all_off true)))) eq_refl)).
  vm_compute. discriminate.
Defined.

Lemma init_pins power_on : LEDController.init power_on = all_off true.
Proof. destruct power_on. reflexivity. Qed.

Lemma spec_render_counts now enabled alert rs :
  (arrows_lit (spec_render now enabled alert rs) <= 1)%nat /\
  (colours_lit (spec_render now enabled alert rs) <= 1)%nat /\
  (arrows_lit (spec_render now enabled alert rs) <=
   colours_lit (spec_render now enabled alert rs))%nat.
Proof.
  unfold spec_render, arrows_lit, colours_lit.
  destruct enabled; simpl; [|lia].
  destruct (DisplayManager.findRoute _ _) as [r|]; [|simpl; lia].
  destruct (0 <? eta r); [|simpl; lia].
  simpl. destruct (arrow r), (color r), (isOn (classify (eta r)) now); simpl; lia.
Qed.

(** X7. In every reachable state, from whatever levels the pins powered
    up at, at most one arrow and at most one colour indicator is lit, and an
    arrow is lit only while a colour indicator is. *)
Theorem reachable_indicators (d : Device) :
  reachable d ->
  (arrows_lit (pins d) <= 1)%nat /\
  (colours_lit (pins d) <= 1)%nat /\
  (arrows_lit (pins d) <= colours_lit (pins d))%nat.
Proof.
  intros [power_on | inbox now d0 _ _].
  - unfold BusOTron.init, with_pins. simpl. rewrite init_pins.
    unfold arrows_lit, colours_lit. simpl. lia.
  - unfold BusOTron.loop. rewrite render_pins. apply spec_render_counts.
Qed.

Lemma reachable_indicators_witness :
  (arrows_lit (pins (BusOTron.loop
      [("CTApredictions/BUS/1151/77", "240")]%string 14900
      (BusOTron.init (BusOTron.new (mkPins true true true true true true)))))
   <= 1)%nat.
Proof.
  apply (reachable_indicators
           (BusOTron.loop [("CTApredictions/BUS/1151/77", "240")]%string 14900
              (BusOTron.init (BusOTron.new (mkPins true true true true true true))))).
  apply reachable_loop.
  - apply reachable_init.
  - unfold is_ulong, ULONG_MAX. lia.
Defined.

(** ** Slot rotation *)

Lemma currentSlot_div_mod now :
  DisplayManager.currentSlot now = (now / 10000) mod 6.
Proof.
  rewrite currentSlot_formula.
  change 60000 with (10000 * 6).
  rewrite Z.rem_mul_r by lia.
  rewrite (Z.mul_comm 10000 (now / 10000 mod 6)).
  rewrite Z.div_add by lia.
  rewrite Z.div_small by (apply Z.mod_pos_bound; lia). lia.
Qed.

(** X8. As long as the 32-bit counter does not wrap, the slot stays the
    same until the next multiple of 10000 ms and then moves to the next slot
    of the cycle 0, 1, 2, 3, 4, 5, 0: each route is shown for 10 seconds, in
    array order. *)
Theorem slot_rotation (now dt : Z) :
  is_ulong now ->
  (0 <= dt -> now + dt <= ULONG_MAX -> now mod 10000 + dt < 10000 ->
   activeSlot (ulong_add now dt) = activeSlot now) /\
  (now + 10000 <= ULONG_MAX ->
   activeSlot (ulong_add now 10000) = (activeSlot now + 1) mod 6).
Proof.
  intros Hnow. unfold is_ulong in Hnow. unfold activeSlot. split.
  - intros Hdt Hfit Hin.
    rewrite ulong_add_no_wrap by lia.
    rewrite !currentSlot_div_mod. f_equal.
    symmetry. apply (Z.div_unique (now + dt) 10000 (now / 10000) (now mod 10000 + dt)).
    + pose proof (Z.mod_pos_bound now 10000 ltac:(lia)). lia.
    + pose proof (Z.div_mod now 10000 ltac:(lia)). lia.
  - intros Hfit. rewrite ulong_add_no_wrap by lia.
    rewrite !currentSlot_div_mod.
    replace (now + 10000) with (now + 1 * 10000) by lia.
    rewrite Z.div_add by lia.
    rewrite Z.add_mod_idemp_l by lia. reflexivity.
Qed.

Lemma slot_rotation_witness :
  activeSlot (ulong_add 59000 999) = activeSlot 59000 /\
  activeSlot (ulong_add 59000 10000) = 0.
Proof.
  assert (Hnow : is_ulong 59000) by (unfold is_ulong, ULONG_MAX; lia).
  destruct (slot_rotation 59000 999 Hnow) as [Hsame _].
  destruct (slot_rotation 59000 10000 Hnow) as [_ Hnext].
  split.
  - apply Hsame; [lia | unfold ULONG_MAX; lia | reflexivity].
  - rewrite Hnext; [reflexivity | unfold ULONG_MAX; lia].
Defined.

(** ** The blink interval codes *)

(** Case analysis on the five comparisons of [getBlinkInterval]. *)
Ltac interval_cases eta :=
  destruct (Z.ltb_spec eta 90); try lia;
  destruct (Z.ltb_spec eta 300); try lia;
  destruct (Z.ltb_spec eta 600); try lia;
  destruct (Z.ltb_spec eta 900); try lia;
  destruct (Z.ltb_spec eta 5000); try lia.

(** X9. [getBlinkInterval] returns one of the six codes 180, 360, 600,
    900, -1 and 0 and nothing else, so the remainder of line 144 is never
    taken by zero; it grows with the ETA below 900 seconds; and on its own it
    answers 180 for an ETA of zero or less, which is why [updateArrowBlink]
    tests [eta <= 0] first. *)
Theorem getBlinkInterval_codes (eta1 eta2 : Z) :
  let b := LEDController.getBlinkInterval eta1 in
  (b = 180 \/ b = 360 \/ b = 600 \/ b = 900 \/ b = -1 \/ b = 0) /\
  (b <> 0 -> b <> -1 -> to_ulong b = b /\ 0 < to_ulong b) /\
  (eta1 <= eta2 -> eta2 < 900 ->
   b <= LEDController.getBlinkInterval eta2) /\
  (eta1 <= 0 -> b = 180).
Proof.
  cbv zeta.
  unfold LEDController.getBlinkInterval, LEDController.BLINK_SUPER_FAST,
    LEDController.BLINK_FAST, LEDController.BLINK_MEDIUM, LEDController.BLINK_SLOW.
  split; [|split; [|split]].
  - interval_cases eta1; auto 10.
  - intros Hn0 Hn1. interval_cases eta1; try contradiction; split; reflexivity.
  - intros Hle Hlt. interval_cases eta1; interval_cases eta2; lia.
  - intros Hle. interval_cases eta1; reflexivity.
Qed.

Lemma getBlinkInterval_codes_witness :
  LEDController.getBlinkInterval 120 <= LEDController.getBlinkInterval 700 /\
  LEDController.getBlinkInterval (-4) = 180.
Proof.
  split.
  - apply (proj1 (proj2 (proj2 (getBlinkInterval_codes 120 700)))); lia.
  - apply (proj2 (proj2 (proj2 (getBlinkInterval_codes (-4) 0)))). lia.
Defined.

(** ** The message buffer *)

Lemma substring_0_all n : forall s,
  (String.length s <= n)%nat -> substring 0 n s = s.
Proof.
  induction n as [|n IH]; intros [|c s]; simpl; intros H; try reflexivity.
  - lia.
  - rewrite IH by lia. reflexivity.
Qed.

Lemma substring_0_prefix n : forall s,
  exists rest, s = (substring 0 n s ++ rest)%string.
Proof.
  induction n as [|n IH]; intros [|c s]; simpl.
  - exists EmptyString. reflexivity.
  - exists (String c s). reflexivity.
  - exists EmptyString. reflexivity.
  - destruct (IH s) as [rest Hrest]. exists rest. rewrite <- Hrest. reflexivity.
Qed.

Lemma receive_substring payload :
  BusOTron.receive payload = substring 0 15 payload.
Proof.
  unfold BusOTron.receive, BusOTron.MESSAGE_SIZE.
  destruct (Z.ltb_spec (Z.of_nat (String.length payload)) 16); [|reflexivity].
  symmetry. apply substring_0_all. lia.
Qed.

Lemma c_str_substring n : forall s,
  CString.c_str (substring 0 n (CString.c_str s)) =
  CString.c_str (substring 0 n s).
Proof.
  induction n as [|n IH]; intros [|c s]; simpl; try reflexivity.
  - destruct (Ascii.eqb c CString.NUL); reflexivity.
  - destruct (Ascii.eqb c CString.NUL) eqn:Hc; simpl; [reflexivity|].
    rewrite Hc, IH. reflexivity.
Qed.

(** X10. The copy into [message] keeps a prefix of the payload of at most
    15 bytes, so the 16-byte buffer with its terminator is never overrun; a
    payload of up to 15 bytes is kept whole, a longer one keeps exactly its
    first 15 bytes. *)
Theorem receive_prefix (payload : string) :
  (String.length (BusOTron.receive payload) <= 15)%nat /\
  (exists rest, payload = (BusOTron.receive payload ++ rest)%string) /\
  ((String.length payload <= 15)%nat -> BusOTron.receive payload = payload) /\
  ((15 < String.length payload)%nat ->
   String.length (BusOTron.receive payload) = 15%nat).
Proof.
  split; [apply receive_length|].
  split; [rewrite receive_substring; apply substring_0_prefix|].
  split; [apply receive_short|].
  intros Hlong. rewrite receive_substring.
  clear -Hlong. revert Hlong. generalize 15%nat as n.
  intros n. revert payload. induction n as [|n IH]; intros [|c s]; simpl; intros H;
    try reflexivity; try lia.
  rewrite IH by lia. reflexivity.
Qed.

Lemma receive_prefix_witness :
  BusOTron.receive "240" = "240"%string /\
  String.length (BusOTron.receive "devices/busotron/enable") = 15%nat.
Proof.
  split.
  - apply (proj1 (proj2 (proj2 (receive_prefix "240")))). simpl. lia.
  - apply (proj2 (proj2 (proj2 (receive_prefix "devices/busotron/enable")))).
    simpl. lia.
Defined.

(** X11. Only the first 15 bytes of a payload, and of those only the
    bytes before the first NUL, have any effect: the handler does the same on
    the payload, on its 15-byte prefix and on its C-string part. *)
Theorem payload_tail_ignored (topic_ payload : string) (d : Device) :
  BusOTron.handleMQTTMessage topic_ (BusOTron.receive payload) d =
    BusOTron.handleMQTTMessage topic_ payload d /\
  BusOTron.handleMQTTMessage topic_ (CString.c_str payload) d =
    BusOTron.handleMQTTMessage topic_ payload d.
Proof.
  split.
  - unfold BusOTron.handleMQTTMessage.
    rewrite (receive_short (BusOTron.receive payload)) by apply receive_length.
    reflexivity.
  - unfold BusOTron.handleMQTTMessage, CString.toInt.
    rewrite !strcmp_eqb, !receive_substring, !c_str_substring. reflexivity.
Qed.

(** ** How messages compose *)

Lemma updateEta_twice rs topic_ v1 v2 :
  BusOTron.updateEta (BusOTron.updateEta rs topic_ v1) topic_ v2 =
  BusOTron.updateEta rs topic_ v2.
Proof.
  induction rs as [|r0 rest IH]; simpl; [reflexivity|].
  destruct (CString.strcmp topic_ (topic r0) =? 0) eqn:Hm; simpl; rewrite Hm.
  - reflexivity.
  - rewrite IH. reflexivity.
Qed.

(** X12. The last write wins: of two messages on the same topic only the
    second leaves a trace, whether the topic is a control channel, a route or
    unknown; nothing is accumulated or averaged. *)
Theorem last_message_wins (topic_ p1 p2 : string) (d : Device) :
  BusOTron.handleMQTTMessage topic_ p2 (BusOTron.handleMQTTMessage topic_ p1 d) =
  BusOTron.handleMQTTMessage topic_ p2 d.
Proof.
  unfold BusOTron.handleMQTTMessage.
  destruct (CString.strcmp topic_ BusOTron.ENABLE_TOPIC =? 0); [reflexivity|].
  destruct (CString.strcmp topic_ BusOTron.ALERT_TOPIC =? 0); [reflexivity|].
  unfold set_routes. simpl. rewrite updateEta_twice. reflexivity.
Qed.

Lemma updateEta_comm rs t1 t2 v1 v2 :
  CString.strcmp t1 t2 <> 0 ->
  BusOTron.updateEta (BusOTron.updateEta rs t1 v1) t2 v2 =
  BusOTron.updateEta (BusOTron.updateEta rs t2 v2) t1 v1.
Proof.
  intros Hne. induction rs as [|r0 rest IH]; simpl; [reflexivity|].
  destruct (Z.eqb_spec (CString.strcmp t1 (topic r0)) 0) as [H1|H1];
    destruct (Z.eqb_spec (CString.strcmp t2 (topic r0)) 0) as [H2|H2]; simpl.
  - exfalso. apply Hne. apply strcmp_0_iff.
    apply strcmp_0_iff in H1, H2. congruence.
  - apply Z.eqb_neq in H2. apply Z.eqb_eq in H1. rewrite H1, H2. reflexivity.
  - apply Z.eqb_neq in H1. apply Z.eqb_eq in H2. rewrite H1, H2. reflexivity.
  - apply Z.eqb_neq in H1, H2. rewrite H1, H2, IH. reflexivity.
Qed.

(** X13. Messages on different topics commute: delivered in either
    order they leave the same state, so the arrival order matters only
    between messages of one topic. *)
Theorem messages_commute (t1 p1 t2 p2 : string) (d : Device) :
  CString.strcmp t1 t2 <> 0 ->
  BusOTron.handleMQTTMessage t1 p1 (BusOTron.handleMQTTMessage t2 p2 d) =
  BusOTron.handleMQTTMessage t2 p2 (BusOTron.handleMQTTMessage t1 p1 d).
Proof.
  intros Hne.
  assert (Hsame : forall t, CString.strcmp t1 t = 0 -> CString.strcmp t2 t = 0 -> False).
  { intros t H1 H2. apply Hne, strcmp_0_iff.
    apply strcmp_0_iff in H1, H2. congruence. }
  unfold BusOTron.handleMQTTMessage.
  destruct (Z.eqb_spec (CString.strcmp t1 BusOTron.ENABLE_TOPIC) 0) as [E1|E1];
    destruct (Z.eqb_spec (CString.strcmp t2 BusOTron.ENABLE_TOPIC) 0) as [E2|E2];
    try (exfalso; exact (Hsame _ E1 E2));
    destruct (Z.eqb_spec (CString.strcmp t1 BusOTron.ALERT_TOPIC) 0) as [A1|A1];
    destruct (Z.eqb_spec (CString.strcmp t2 BusOTron.ALERT_TOPIC) 0) as [A2|A2];
    try (exfalso; exact (Hsame _ A1 A2));
    try reflexivity.
  unfold set_routes. simpl. rewrite (updateEta_comm _ t1 t2) by exact Hne.
  reflexivity.
Qed.

Lemma messages_commute_witness :
  BusOTron.handleMQTTMessage "devices/busotron/enable" "OFF"
    (BusOTron.handleMQTTMessage "CTApredictions/BUS/1151/77" "240"
       (BusOTron.new (all_off true))) =
  BusOTron.handleMQTTMessage "CTApredictions/BUS/1151/77" "240"
    (BusOTron.handleMQTTMessage "devices/busotron/enable" "OFF"
       (BusOTron.new (all_off true))).
Proof.
  apply (messages_commute "devices/busotron/enable" "OFF"
           "CTApredictions/BUS/1151/77" "240" (BusOTron.new (all_off true))).
  vm_compute. discriminate.
Defined.

(** ** The registry and the subscriptions *)

Lemma same_attributes_maps l rs :
  Forall2 same_attributes l rs ->
  map topic rs = map topic l /\ map displaySlot rs = map displaySlot l /\
  map color rs = map color l /\ map arrow rs = map arrow l.
Proof.
  induction 1 as [|r r' l rs (_ & Ht & _ & Hc & Ha & Hs) _ (IHt & IHs & IHc & IHa)];
    simpl; [auto|].
  rewrite Ht, Hs, Hc, Ha, IHt, IHs, IHc, IHa. auto.
Qed.

(** X14. In every reachable state the route array is still the six routes
    of the constructor with their topics, slots 0 to 5, colours and arrows
    in place: messages and render ticks only ever change ETAs, and every
    stored ETA is a value of type [int]. *)
Theorem reachable_routes (d : Device) :
  reachable d ->
  map topic (routes d) = map topic BusOTron.ROUTES /\
  map displaySlot (routes d) = [0; 1; 2; 3; 4; 5] /\
  map color (routes d) = map color BusOTron.ROUTES /\
  map arrow (routes d) = map arrow BusOTron.ROUTES /\
  Z.of_nat (length (routes d)) = BusOTron.ROUTE_COUNT /\
  Forall (fun r => is_int (eta r)) (routes d).
Proof.
  intros Hreach. destruct (reachable_registry d Hreach) as [Hattr Hint].
  destruct (same_attributes_maps _ _ Hattr) as (Ht & Hs & Hc & Ha).
  repeat (split; [assumption|]).
  split; [|exact Hint].
  rewrite <- (length_map topic), Ht. reflexivity.
Qed.

Lemma reachable_routes_witness :
  map displaySlot
    (routes (BusOTron.loop [("CTApredictions/RAIL/30232", "-7")]%string 70000
               (BusOTron.init (BusOTron.new (all_off false))))) =
  [0; 1; 2; 3; 4; 5].
Proof.
  apply (reachable_routes
           (BusOTron.loop [("CTApredictions/RAIL/30232", "-7")]%string 70000
              (BusOTron.init (BusOTron.new (all_off false))))).
  apply reachable_loop.
  - apply reachable_init.
  - unfold is_ulong, ULONG_MAX. lia.
Defined.

(** X15. In every reachable state and at every time the lookup of the
    render tick finds a route: [currentRoute] is never null, it is assigned
    to the active slot, and no other route of the array is. *)
Theorem reachable_slot_owner (d : Device) (now : Z) :
  reachable d ->
  exists r,
    DisplayManager.findRoute (routes d) (activeSlot now) = Some r /\
    displaySlot r = activeSlot now /\
    forall r', In r' (routes d) -> displaySlot r' = activeSlot now -> r' = r.
Proof.
  intros Hreach. apply registry_owner, reachable_registry, Hreach.
Qed.

Lemma reachable_slot_owner_witness :
  exists r,
    DisplayManager.findRoute
      (routes (BusOTron.init (BusOTron.new (all_off false)))) (activeSlot 25000)
    = Some r /\ displaySlot r = activeSlot 25000.
Proof.
  destruct (reachable_slot_owner (BusOTron.init (BusOTron.new (all_off false)))
              25000 (reachable_init (all_off false))) as (r & Hfind & Hslot & _).
  exists r. split; assumption.
Defined.

(** X16. The handler acts only on topics that [subscribeToTopics]
    subscribes to: in any state, a message whose topic is none of the
    subscribed ones leaves the whole state as it was. *)
Theorem unsubscribed_topic_ignored (topic_ payload : string) (d : Device) :
  ~ In (CString.c_str topic_) (map CString.c_str (BusOTron.subscribeToTopics d)) ->
  BusOTron.handleMQTTMessage topic_ payload d = d.
Proof.
  intros Hnot. unfold BusOTron.subscribeToTopics in Hnot.
  rewrite map_app, in_app_iff in Hnot.
  unfold BusOTron.handleMQTTMessage.
  destruct (Z.eqb_spec (CString.strcmp topic_ BusOTron.ENABLE_TOPIC) 0) as [He|He].
  { exfalso. apply Hnot. left. left. apply strcmp_0_iff in He. symmetry. exact He. }
  destruct (Z.eqb_spec (CString.strcmp topic_ BusOTron.ALERT_TOPIC) 0) as [Ha|Ha].
  { exfalso. apply Hnot. left. right. left. apply strcmp_0_iff in Ha.
    symmetry. exact Ha. }
  rewrite updateEta_no_match; [destruct d; reflexivity|].
  intros r Hin Hm. apply Hnot. right.
  apply strcmp_0_iff in Hm. rewrite Hm.
  rewrite map_map. apply (in_map (fun r => CString.c_str (topic r))). exact Hin.
Qed.

Lemma unsubscribed_topic_ignored_witness :
  BusOTron.handleMQTTMessage "CTApredictions/BUS/1151/78" "240"
    (BusOTron.new (all_off true)) = BusOTron.new (all_off true).
Proof.
  apply (unsubscribed_topic_ignored "CTApredictions/BUS/1151/78" "240"
           (BusOTron.new (all_off true))).
  vm_compute. intros [H|[H|[H|[H|[H|[H|[H|[H|[]]]]]]]]]; discriminate H.
Defined.

Lemma ROUTES_topics_distinct (i j : nat) ti tj :
  map topic BusOTron.ROUTES !! i = Some ti ->
  map topic BusOTron.ROUTES !! j = Some tj ->
  (i <> j -> CString.strcmp ti tj <> 0) /\
  CString.strcmp ti BusOTron.ENABLE_TOPIC <> 0 /\
  CString.strcmp ti BusOTron.ALERT_TOPIC <> 0.
Proof.
  destruct i as [|[|[|[|[|[|i]]]]]]; simpl; try discriminate; intros [= <-];
    (destruct j as [|[|[|[|[|[|j]]]]]]; simpl; try discriminate; intros [= <-];
     (split; [intros Hne; try (exfalso; apply Hne; reflexivity)|split];
      vm_compute; discriminate)).
Qed.

Lemma lookup_map_topic (rs : list Route) (i : nat) r :
  rs !! i = Some r -> map topic rs !! i = Some (topic r).
Proof.
  revert i. induction rs as [|r0 rest IH]; intros [|i]; simpl; try discriminate.
  - intros [= ->]. reflexivity.
  - apply IH.
Qed.

(** X17. In every reachable state each of the six route topics reaches
    its own route: a message on the topic of the route at index [i]
    overwrites the ETA of that route with [toInt] of the truncated payload
    and changes nothing else, neither the other routes nor the two system
    flags nor the pins. *)
Theorem reachable_dispatch (d : Device) (i : nat) (r : Route) (payload : string) :
  reachable d ->
  routes d !! i = Some r ->
  BusOTron.handleMQTTMessage (topic r) payload d =
  set_routes (<[i := set_eta (CString.toInt (BusOTron.receive payload)) r]> (routes d)) d.
Proof.
  intros Hreach Hi.
  destruct (reachable_registry d Hreach) as [Hattr _].
  destruct (same_attributes_maps _ _ Hattr) as (Ht & _).
  pose proof (lookup_map_topic _ _ _ Hi) as Hti. rewrite Ht in Hti.
  destruct (ROUTES_topics_distinct i i _ _ Hti Hti) as (_ & He & Ha).
  unfold BusOTron.handleMQTTMessage.
  apply Z.eqb_neq in He, Ha. rewrite He, Ha.
  rewrite to_int_id by apply atol_range.
  f_equal. apply updateEta_first_match.
  - exact Hi.
  - apply strcmp_0_iff. reflexivity.
  - intros j r' Hj Hr'.
    pose proof (lookup_map_topic _ _ _ Hr') as Htj. rewrite Ht in Htj.
    apply (ROUTES_topics_distinct i j _ _ Hti Htj). lia.
Qed.

Lemma reachable_dispatch_witness :
  map eta (routes (BusOTron.handleMQTTMessage "CTApredictions/RAIL/30231" "75"
                     (BusOTron.init (BusOTron.new (all_off false))))) =
  [0; 0; 0; 75; 0; 0].
Proof.
  pose (r := Route_new "Brown Line North" "CTApredictions/RAIL/30231"
               RAIL_ROUTE RED_LIGHT ARROW_RIGHT 3).
  change "CTApredictions/RAIL/30231"%string with (topic r).
  rewrite (reachable_dispatch (BusOTron.init (BusOTron.new (all_off false)))
             3%nat r "75" (reachable_init (all_off false)) eq_refl).
  reflexivity.
Defined.

(** ** Whole loop iterations *)

Lemma updateEta_lookup_other (rs : list Route) topic_ eta_ : forall (i : nat) (r : Route),
  CString.strcmp topic_ (topic r) <> 0 ->
  rs !! i = Some r ->
  BusOTron.updateEta rs topic_ eta_ !! i = Some r.
Proof.
  induction rs as [|r0 rest IH]; intros i r Hne Hi; [discriminate|].
  simpl. destruct (Z.eqb_spec (CString.strcmp topic_ (topic r0)) 0) as [E|N].
  - destruct i as [|i]; [|exact Hi].
    injection Hi as ->. contradiction.
  - destruct i as [|i]; [exact Hi|]. simpl. apply IH; assumption.
Qed.

(** X18. Whatever messages one iteration delivers, they write no pin and
    do not touch [lastStatusPrint]; [systemEnabled] can change only through
    a message on the enable topic and [alertActive] only through one on the
    alert topic. *)
Theorem deliver_frame (inbox : list (string * string)) (d : Device) :
  pins (BusOTron.deliver inbox d) = pins d /\
  lastStatusPrint (BusOTron.deliver inbox d) = lastStatusPrint d /\
  (Forall (fun m => CString.strcmp (fst m) BusOTron.ENABLE_TOPIC <> 0) inbox ->
   systemEnabled (BusOTron.deliver inbox d) = systemEnabled d) /\
  (Forall (fun m => CString.strcmp (fst m) BusOTron.ALERT_TOPIC <> 0) inbox ->
   alertActive (BusOTron.deliver inbox d) = alertActive d).
Proof.
  revert d. induction inbox as [|[t p] rest IH]; intros d; simpl.
  - auto.
  - destruct (IH (BusOTron.handleMQTTMessage t p d)) as (Hp & Hl & He & Ha).
    rewrite Hp, Hl.
    split; [|split; [|split]].
    + unfold BusOTron.handleMQTTMessage.
      destruct (_ =? 0); [reflexivity|]. destruct (_ =? 0); reflexivity.
    + unfold BusOTron.handleMQTTMessage.
      destruct (_ =? 0); [reflexivity|]. destruct (_ =? 0); reflexivity.
    + intros Hall. inversion Hall as [|m ms Hhd Htl]; subst m ms. simpl in Hhd.
      rewrite (He Htl). unfold BusOTron.handleMQTTMessage.
      apply Z.eqb_neq in Hhd. rewrite Hhd.
      destruct (CString.strcmp t BusOTron.ALERT_TOPIC =? 0); reflexivity.
    + intros Hall. inversion Hall as [|m ms Hhd Htl]; subst m ms. simpl in Hhd.
      rewrite (Ha Htl). unfold BusOTron.handleMQTTMessage.
      apply Z.eqb_neq in Hhd. rewrite Hhd.
      destruct (CString.strcmp t BusOTron.ENABLE_TOPIC =? 0); reflexivity.
Qed.

Lemma deliver_frame_witness :
  systemEnabled
    (BusOTron.deliver
       [("CTApredictions/alert/active", "ON"); ("CTApredictions/BUS/1151/77", "OFF")]%string
       (BusOTron.new (all_off true))) = true.
Proof.
  apply (proj1 (proj2 (proj2 (deliver_frame
           [("CTApredictions/alert/active", "ON");
            ("CTApredictions/BUS/1151/77", "OFF")]%string
           (BusOTron.new (all_off true)))))).
  repeat constructor; vm_compute; discriminate.
Defined.

Lemma deliver_lookup_other inbox : forall (d : Device) (i : nat) (r : Route),
  Forall (fun m => CString.strcmp (fst m) (topic r) <> 0) inbox ->
  routes d !! i = Some r ->
  routes (BusOTron.deliver inbox d) !! i = Some r.
Proof.
  induction inbox as [|[t p] rest IH]; intros d i r Hall Hi; simpl; [exact Hi|].
  inversion Hall as [|m ms Hhd Htl]; subst m ms. simpl in Hhd.
  apply IH; [exact Htl|].
  unfold BusOTron.handleMQTTMessage.
  destruct (_ =? 0); [exact Hi|]. destruct (_ =? 0); [exact Hi|].
  simpl. apply updateEta_lookup_other; assumption.
Qed.

(** X19. An ETA never expires: a route keeps its ETA, and all of its other
    fields, through any iteration of the loop in which no message arrives on
    its topic, whatever the time and whatever else is delivered. *)
Theorem eta_persists (inbox : list (string * string)) (now : Z) (d : Device)
    (i : nat) (r : Route) :
  Forall (fun m => CString.strcmp (fst m) (topic r) <> 0) inbox ->
  routes d !! i = Some r ->
  routes (BusOTron.loop inbox now d) !! i = Some r.
Proof.
  intros Hall Hi. unfold BusOTron.loop.
  rewrite (proj2 (proj2 (render_frame now (BusOTron.deliver inbox d)))).
  apply deliver_lookup_other; assumption.
Qed.

Lemma eta_persists_witness :
  eta <$> routes
    (BusOTron.loop [("devices/busotron/enable", "OFF")]%string 4000000000
       (BusOTron.handleMQTTMessage "CTApredictions/BUS/1151/77" "240"
          (BusOTron.new (all_off true)))) !! 1%nat = Some 240.
Proof.
  pose (r := set_eta 240
               (Route_new "Route 77 West" "CTApredictions/BUS/1151/77"
                  BUS_ROUTE AMBER_LEFT ARROW_RIGHT 1)).
  assert (Hall : Forall (fun m => CString.strcmp (fst m) (topic r) <> 0)
                   [("devices/busotron/enable", "OFF")]%string).
  { repeat constructor. vm_compute. discriminate. }
  rewrite (eta_persists [("devices/busotron/enable", "OFF")]%string 4000000000
             (BusOTron.handleMQTTMessage "CTApredictions/BUS/1151/77" "240"
                (BusOTron.new (all_off true))) 1%nat r Hall eq_refl).
  reflexivity.
Defined.
